(** * livetracker_staticone.py: BTC & ETH 7-day tracker

    A shallow embedding of the Streamlit script [livetracker_staticone.py]
    and the verification of its specification.

    - Prices are IEEE-754 binary64 numbers, as in Python and pandas: the
      kernel's primitive [float], whose operations are specified by
      [SpecFloat] (missing values are NaN, as in pandas).
    - The pandas operations the script calls ([concat], [ffill], [bfill],
      [iloc], [ewm(..., adjust=False).mean()], [to_csv], [read_csv]) are
      modelled on lists, with the exceptions they raise.
    - The script itself is a computation in a state-and-exception monad over
      the file system and the trace of what it shows and requests; what the
      exchange replies, the clock and the user's choice in the sidebar are
      its inputs.

    Left out: the page set-up (lines 11-25), the layout and axis range of
    the charts (lines 104-127), directories, and the text rendering of CSV
    cells: a file is the list of its lines, each a list of typed cells, as
    [to_csv] writes them. *)

From Stdlib Require Import Ascii Sorted ZArith Floats Lia.
From stdpp Require Import gmap strings list.

Local Open Scope Z_scope.

(* ================================================================== *)
(** * Part I: the model                                                *)
(* ================================================================== *)

(** ** Exceptions and results *)

Inductive exn :=
| FileNotFoundError
| EmptyDataError
| ValueError
| IndexError
| ConnectionError
| HTTPError (status : Z).

(** The result of a call that may raise. *)
Inductive result (A : Type) :=
| Ok (a : A)
| Raise (e : exn).
Arguments Ok {A} a.
Arguments Raise {A} e.

#[global] Instance result_ret : MRet result := λ A a, Ok a.
#[global] Instance result_bind : MBind result := λ A B f r,
  match r with
  | Ok a => f a
  | Raise e => Raise e
  end.

(** ** Floating-point vocabulary *)

Module Float64.

(** pandas' [isna]: a value is missing when it is NaN. *)
Definition isna (x : float) : bool := is_nan x.

(** Python's [x != 0] on a float. *)
Definition nonzero (x : float) : bool := negb (is_zero x).

(** The mantissa of 2^k as a normal binary64 number: 2^52. *)
Definition pow2_52 : positive := 4503599627370496.

(** [exact_product c x]: the product [c * x] is computed exactly.  For
    finite nonzero [c = mc * 2^ec] and [x = mx * 2^ex] the product must be
    a finite nonzero [mp * 2^ep] with [mc * mx * 2^(ec + ex) = mp * 2^ep]:
    no rounding, overflow or underflow (the two sides are compared as
    integers, after clearing the smaller exponent).  When [x] is a zero, an
    infinity or NaN there is nothing to round. *)
Definition exact_product (c x : float) : bool :=
  match Prim2SF c, Prim2SF x with
  | S754_finite _ mc ec, S754_finite _ mx ex =>
      match Prim2SF (c * x) with
      | S754_finite _ mp ep =>
          Z.pos mc * Z.pos mx * 2 ^ Z.max 0 (ec + ex - ep)
          =? Z.pos mp * 2 ^ Z.max 0 (ep - (ec + ex))
      | _ => false
      end
  | _, _ => true
  end.

(** *** Rounding vocabulary

    [SpecFloat] rounds a quotient of naturals through a record of its
    integer part, its first fractional bit and a sticky bit.
    [quot_record A B] is that record for [A / B]. *)
Definition quot_record (A B : Z) : shr_record :=
  {| shr_m := A / B;
     shr_r := B <=? 2 * (A mod B);
     shr_s := negb (2 * (A mod B) mod B =? 0) |}.

(** The record of [A / B] at exponent [e], shifted to the exponent of the
    format. *)
Definition shr_to (A B e : Z) : shr_record * Z :=
  shr (quot_record A B) e (fexp prec emax (Zdigits2 (A / B) + e) - e).

(** The exponent [e] is not above the exponent of the format: no bit of
    the result is missing from [A / B]. *)
Definition admissible (A B e : Z) : Prop :=
  e ≤ fexp prec emax (Zdigits2 (A / B) + e).

(** What follows the first shift in [binary_round_aux]: rounding to nearest
    even, the shift that a carry may need, and the overflow test. *)
Definition round_tail (sx : bool) (p : shr_record * Z) : spec_float :=
  let '(mrs', e') := p in
  let '(mrs'', e'') :=
    shr_fexp prec emax
      (round_nearest_even (shr_m mrs') (loc_of_shr_record mrs')) e' loc_Exact in
  match shr_m mrs'' with
  | Z0 => S754_zero sx
  | Zpos m => if e'' <=? emax - prec then S754_finite sx m e'' else S754_infinity sx
  | _ => S754_nan
  end.

(** The exponent at which [SFdiv] truncates the quotient. *)
Definition div_exp (m1 : positive) (e1 : Z) (m2 : positive) (e2 : Z) : Z :=
  Z.min (fexp prec emax (Zdigits2 (Z.pos m1) + e1 - (Zdigits2 (Z.pos m2) + e2)))
        (e1 - e2).

End Float64.
Import Float64.

(** ** The pandas fragment *)

Module pd.

(** A [DataFrame] with a [DatetimeIndex] (milliseconds since the epoch)
    and the single column ["price"]: what [get_binance_data] returns and
    what a snapshot file holds. *)
Definition price_df : Type := list (Z * float).

(** The frame [data]: an index and the columns ["BTC-USD"], ["ETH-USD"]. *)
Record frame := {
  index : list Z;
  BTC_USD : list float;
  ETH_USD : list float;
}.

(** *** [pd.concat([..., ...], axis=1)] *)

Fixpoint insert_sorted (t : Z) (l : list Z) : list Z :=
  match l with
  | [] => [t]
  | u :: r =>
      if t <? u then t :: l
      else if t =? u then l
      else u :: insert_sorted t r
  end.

(** The outer join sorts the union of two different, non-empty
    [DatetimeIndex]es ([Index.union] with [sort=None]). *)
Definition index_union (a b : list Z) : list Z :=
  foldr insert_sorted [] (a ++ b).

(** The value at label [t], NaN where the label is absent. *)
Fixpoint at_label (t : Z) (s : price_df) : float :=
  match s with
  | [] => nan
  | (u, p) :: r => if t =? u then p else at_label t r
  end.

Definition reindex (s : price_df) (idx : list Z) : list float :=
  (λ t, at_label t s) <$> idx.

(** The index of the frame is the union of the two indexes.
    [Index.union] returns the first index as it is when the two are equal
    or the second is empty, and the second as it is when the first is
    empty: no sorting, duplicates allowed.  Otherwise it joins and sorts
    them, and each series is reindexed on the result, which raises
    [ValueError] ("cannot reindex on an axis with duplicate labels") when
    the series has a duplicate label. *)
Definition concat (btc_df eth_df : price_df) : result frame :=
  let ib := btc_df.*1 in
  let ie := eth_df.*1 in
  if decide (ib = ie) then
    Ok {| index := ib; BTC_USD := btc_df.*2; ETH_USD := eth_df.*2 |}
  else if decide (ie = []) then
    Ok {| index := ib; BTC_USD := btc_df.*2; ETH_USD := reindex eth_df ib |}
  else if decide (ib = []) then
    Ok {| index := ie; BTC_USD := reindex btc_df ie; ETH_USD := eth_df.*2 |}
  else if decide (NoDup ib ∧ NoDup ie) then
    let idx := index_union ib ie in
    Ok {| index := idx;
          BTC_USD := reindex btc_df idx;
          ETH_USD := reindex eth_df idx |}
  else Raise ValueError.

(** *** [ffill] and [bfill] *)

Fixpoint ffill_from (last : float) (col : list float) : list float :=
  match col with
  | [] => []
  | x :: r =>
      if isna x then last :: ffill_from last r
      else x :: ffill_from x r
  end.

Definition ffill (col : list float) : list float := ffill_from nan col.

Fixpoint bfill (col : list float) : list float :=
  match col with
  | [] => []
  | x :: r =>
      let r' := bfill r in
      (if isna x then hd nan r' else x) :: r'
  end.

Definition frame_map (f : list float → list float) (d : frame) : frame :=
  {| index := index d; BTC_USD := f (BTC_USD d); ETH_USD := f (ETH_USD d) |}.

(** *** [iloc] *)

Definition iloc_first (col : list float) : result float :=
  match col with
  | [] => Raise IndexError
  | x :: _ => Ok x
  end.

Definition iloc_last (col : list float) : result float :=
  match last col with
  | None => Raise IndexError
  | Some x => Ok x
  end.

(** *** [ewm(span=..., adjust=False).mean()]

    The loop of pandas' [window.aggregations.ewm], with [adjust=False],
    [ignore_na=False] and [min_periods] at its default.  A value is an
    observation when it is not NaN; the window code first turns the
    infinities into NaN. *)

(** [get_center_of_mass]: [com = (span - 1) / 2]; then
    [alpha = 1 / (1 + com)]. *)
Definition com_of_span (span : float) : float := ((span - 1) / 2)%float.

Definition alpha_of_span (span : float) : float := (1 / (1 + com_of_span span))%float.

(** [_prep_values]: "Convert inf to nan for C funcs". *)
Definition prep_values (vals : list float) : list float :=
  (λ x, if is_infinity x then nan else x) <$> vals.

(** [ewm] is called without [min_periods]: its default, 0, counts as 1. *)
Definition min_periods : Z := 1.

Definition is_observation (x : float) : bool := (x =? x)%float.

(** One pass of the loop body per value: [weighted] is the output so far,
    [old_wt] the weight it carries and [nobs] the number of observations
    seen. *)
Fixpoint ewm_loop (old_wt_factor new_wt weighted old_wt : float) (nobs : Z)
    (vals : list float) : list float :=
  match vals with
  | [] => []
  | cur :: rest =>
      let nobs := nobs + Z.b2z (is_observation cur) in
      let '(weighted, old_wt) :=
        if (weighted =? weighted)%float then
          let old_wt := (old_wt * old_wt_factor)%float in
          if is_observation cur then
            ((* avoid numerical errors on constant series *)
             (if negb (weighted =? cur)%float
              then ((old_wt * weighted + new_wt * cur) / (old_wt + new_wt))%float
              else weighted),
             1%float)
          else (weighted, old_wt)
        else if is_observation cur then (cur, old_wt)
        else (weighted, old_wt) in
      (if min_periods <=? nobs then weighted else nan)
      :: ewm_loop old_wt_factor new_wt weighted old_wt nobs rest
  end.

Definition ewm_mean (span : float) (vals : list float) : list float :=
  match prep_values vals with
  | [] => []
  | v0 :: rest =>
      let alpha := alpha_of_span span in
      let nobs := Z.b2z (is_observation v0) in
      (if min_periods <=? nobs then v0 else nan)
      :: ewm_loop (1 - alpha) alpha v0 1 nobs rest
  end.

(** *** CSV files

    A file is the list of its lines, each ended by a newline as [to_csv]
    writes them, and a line is a list of cells.  Cells keep the value that
    was written (the text rendering of floats and dates is not
    modelled). *)

Inductive cell :=
| CStr (s : string)
| CTime (t : Z)
| CNum (x : float).

Abbreviation csv := (list (list cell)).

Definition snapshot_header : list cell := [CStr "timestamp"; CStr "price"].

(** [df.to_csv(path)] for a price frame: header, then index and price. *)
Definition price_df_to_csv (df : price_df) : csv :=
  snapshot_header :: ((λ '(t, p), [CTime t; CNum p]) <$> df).

(** A data row, as [to_csv] writes it: a time and a number.  Rows of
    another shape are outside the model and are rejected here. *)
Definition parse_row (line : list cell) : result (Z * float) :=
  match line with
  | [CTime t; CNum p] => Ok (t, p)
  | _ => Raise ValueError
  end.

Fixpoint parse_rows (lines : csv) : result price_df :=
  match lines with
  | [] => Ok []
  | l :: rest =>
      row ← parse_row l;
      rows ← parse_rows rest;
      Ok (row :: rows)
  end.

(** [pd.read_csv(path, parse_dates=["timestamp"], index_col="timestamp")]
    on the content of a file ([None]: no such file). *)
Definition read_csv (content : option csv) : result price_df :=
  match content with
  | None => Raise FileNotFoundError
  | Some [] => Raise EmptyDataError
  | Some (h :: lines) =>
      match h with
      | [CStr "timestamp"; CStr "price"] => parse_rows lines
      | _ => Raise ValueError
      end
  end.

End pd.

(** ** The world of one run *)

(** What a run shows to the user or asks of the network, in order. *)
Inductive event :=
| HttpGet (symbol : string)                      (* requests.get, line 47 *)
| SidebarInfo (choice : string)                  (* line 65 *)
| SidebarSuccess                                 (* line 71 *)
| StError (e : exn)                              (* line 76 *)
| PlotlyChart (title : string) (traces : list (list float))
| Metric (label : string) (value delta : float)  (* lines 183-185 *)
| EthRecovery (ratio : float)                    (* st.success, line 188 *)
| BtcLeading (ratio : float)                     (* st.warning, line 190 *)
| DownloadButton (data : pd.csv) (file_name : string)
| Logged (path : string)                         (* st.success, line 226 *)
| Markdown
| Caption.

Record world := {
  files : gmap string pd.csv;
  trace : list event;
}.

(** How a run ends: it runs to its last line, an exception escapes, or
    [st.stop()] halts it. *)
Inductive outcome (A : Type) :=
| Done (a : A)
| Raised (e : exn)
| Stopped.
Arguments Done {A} a.
Arguments Raised {A} e.
Arguments Stopped {A}.

Definition M (A : Type) : Type := world → outcome A * world.

#[global] Instance M_ret : MRet M := λ A a w, (Done a, w).
#[global] Instance M_bind : MBind M := λ A B f m w,
  match m w with
  | (Done a, w') => f a w'
  | (Raised e, w') => (Raised e, w')
  | (Stopped, w') => (Stopped, w')
  end.

Definition lift {A} (r : result A) : M A := λ w,
  match r with
  | Ok a => (Done a, w)
  | Raise e => (Raised e, w)
  end.

Definition emit (ev : event) : M unit := λ w,
  (Done tt, {| files := files w; trace := trace w ++ [ev] |}).

Definition st_stop {A} : M A := λ w, (Stopped, w).

(** [try: body except Exception as e: handler(e)] *)
Definition try_except {A} (body : M A) (handler : exn → M A) : M A := λ w,
  match body w with
  | (Raised e, w') => handler e w'
  | r => r
  end.

Definition read_file (path : string) : M (option pd.csv) := λ w,
  (Done (files w !! path), w).

(** Opening a file for writing truncates it. *)
Definition write_file (path : string) (content : pd.csv) : M unit := λ w,
  (Done tt, {| files := <[path := content]> (files w); trace := trace w |}).

(** Opening a file with [mode='a'] appends, creating it when absent.  The
    lines of a file all end with a newline, so what is appended starts a
    new line. *)
Definition append_file (path : string) (lines : pd.csv) : M unit := λ w,
  (Done tt, {| files := <[path := default [] (files w !! path) ++ lines]> (files w);
               trace := trace w |}).

(** ** The inputs of one run *)

(** What [requests.get] comes back with: no response at all, or a status
    and a body; [None] is a body that [r.json()] or the construction of the
    frame rejects, [Some klines] the open times and closing prices. *)
Inductive http_outcome :=
| NoResponse
| Response (status : Z) (body : option pd.price_df).

Record env := {
  snapshot_choice : string;          (* the select box, line 37 *)
  binance : string → http_outcome;   (* the exchange's reply, per symbol *)
  snapshot_today : string;           (* datetime.now(), line 80 *)
  log_today : string;                (* datetime.now(), line 196 *)
  log_now : string;                  (* datetime.now(), line 199 *)
}.

(** ** The script *)

Definition days_to_track : Z := 7.
Definition ema_period : float := 7%float.
Definition raw_data_dir : string := "data_logs/raw_data".

Definition freeze_mode (e : env) : bool :=
  negb (String.eqb (snapshot_choice e) "Today (Live)").

(** [r.raise_for_status()]: a 4xx or 5xx status raises. *)
Definition raise_for_status (status : Z) : result unit :=
  if (400 <=? status) && (status <? 600) then Raise (HTTPError status)
  else Ok tt.

Definition get_binance_data (e : env) (symbol : string) (days : Z) : M pd.price_df :=
  emit (HttpGet symbol);;
  match binance e symbol with
  | NoResponse => lift (Raise ConnectionError)
  | Response status body =>
      lift (raise_for_status status);;
      match body with
      | None => lift (Raise ValueError)
      | Some df => mret df
      end
  end.

Definition snapshot_file (symbol date : string) : string :=
  raw_data_dir +:+ "/" +:+ symbol +:+ "_" +:+ date +:+ ".csv".

(** Lines 64-82: load data, live or frozen. *)
Definition load_data (e : env) : M (pd.price_df * pd.price_df) :=
  if freeze_mode e then
    emit (SidebarInfo (snapshot_choice e));;
    let btc_file := snapshot_file "BTCUSDT" (snapshot_choice e) in
    let eth_file := snapshot_file "ETHUSDT" (snapshot_choice e) in
    btc_content ← read_file btc_file;
    btc_df ← lift (pd.read_csv btc_content);
    eth_content ← read_file eth_file;
    eth_df ← lift (pd.read_csv eth_content);
    mret (btc_df, eth_df)
  else
    emit SidebarSuccess;;
    dfs ← try_except
      (btc_df ← get_binance_data e "BTCUSDT" days_to_track;
       eth_df ← get_binance_data e "ETHUSDT" days_to_track;
       mret (btc_df, eth_df))
      (λ ex, emit (StError ex);; st_stop);
    let today_str := snapshot_today e in
    write_file (snapshot_file "BTCUSDT" today_str) (pd.price_df_to_csv dfs.1);;
    write_file (snapshot_file "ETHUSDT" today_str) (pd.price_df_to_csv dfs.2);;
    mret dfs.

(** Lines 87-89: combine BTC + ETH. *)
Definition combine (btc_df eth_df : pd.price_df) : result pd.frame :=
  data ← pd.concat btc_df eth_df;
  Ok (pd.frame_map pd.bfill (pd.frame_map pd.ffill data)).

(** Lines 94-95: a column divided by its first value. *)
Definition normalized (col : list float) : result (list float) :=
  first ← pd.iloc_first col;
  Ok ((λ x, x / first)%float <$> col).

(** Line 96. *)
Definition mix_50_50 (btc eth : list float) : list float :=
  zip_with (λ b e, 0.5 * b + 0.5 * e)%float btc eth.

(** Lines 187-190: the leading-asset banner. *)
Definition leading_signal (eth_last btc_last eth_btc_ratio : float) : event :=
  if (btc_last <? eth_last)%float then EthRecovery eth_btc_ratio
  else BtcLeading eth_btc_ratio.

(** Lines 198-209: the columns and the single row of [log_entry]. *)
Definition log_header : list pd.cell :=
  pd.CStr <$> ["timestamp_utc"; "BTC_Price"; "ETH_Price"; "BTC_Normalized";
               "ETH_Normalized"; "Mix_50_50"; "ETH_BTC_Ratio"; "BTC_Return_%";
               "ETH_Return_%"; "Difference_%"].

Definition log_entry (timestamp_utc : string)
    (btc_price eth_price btc_last eth_last mix_last : float)
    (eth_btc_ratio btc_return_pct eth_return_pct diff_pct : float) : list pd.cell :=
  pd.CStr timestamp_utc ::
  (pd.CNum <$> [btc_price; eth_price; btc_last; eth_last; mix_last;
                eth_btc_ratio; btc_return_pct; eth_return_pct; diff_pct]).

(** Line 196: the log of the calendar date [date]. *)
Definition log_file (date : string) : string :=
  "data_logs/crypto_tracker_" +:+ date +:+ ".csv".

Definition log_filename (e : env) : string := log_file (log_today e).

(** Lines 211-214: create the log with its header, or append to it. *)
Definition write_log (path : string) (entry : list pd.cell) : M unit :=
  existing ← read_file path;
  match existing with
  | None => write_file path [log_header; entry]
  | Some _ => append_file path [entry]
  end.

(** Lines 87-229: everything after the data is loaded. *)
Definition pipeline (e : env) (btc_df eth_df : pd.price_df) : M unit :=
  data ← lift (combine btc_df eth_df);
  (* Compute Portfolios (Normalized) *)
  btc ← lift (normalized (pd.BTC_USD data));
  eth ← lift (normalized (pd.ETH_USD data));
  let mix := mix_50_50 btc eth in
  emit (PlotlyChart "Portfolio Performance (Last 7 days, normalized)"
          [btc; eth; mix]);;
  (* BTC Price + EMA *)
  let btc_price := pd.BTC_USD data in
  let btc_ema := pd.ewm_mean ema_period btc_price in
  emit (PlotlyChart "Bitcoin (BTC-USD) Price (Last 7 days) & 7-period EMA"
          [btc_price; btc_ema]);;
  (* ETH Price + EMA *)
  let eth_price := pd.ETH_USD data in
  let eth_ema := pd.ewm_mean ema_period eth_price in
  emit (PlotlyChart "Ethereum (ETH-USD) Price (Last 7 days) & 7-period EMA"
          [eth_price; eth_ema]);;
  (* Metrics *)
  eth_last ← lift (pd.iloc_last eth);
  btc_last ← lift (pd.iloc_last btc);
  let eth_btc_ratio := (eth_last / btc_last)%float in
  let eth_return_pct := ((eth_last - 1) * 100)%float in
  let btc_return_pct := ((btc_last - 1) * 100)%float in
  let diff_pct := (eth_return_pct - btc_return_pct)%float in
  emit (Metric "BTC normalized" btc_last btc_return_pct);;
  emit (Metric "ETH normalized" eth_last eth_return_pct);;
  emit (Metric "ETH/BTC ratio" eth_btc_ratio diff_pct);;
  emit (leading_signal eth_last btc_last eth_btc_ratio);;
  (* Data Logging (Daily Summary) *)
  btc_price_last ← lift (pd.iloc_last btc_price);
  eth_price_last ← lift (pd.iloc_last eth_price);
  mix_last ← lift (pd.iloc_last mix);
  write_log (log_filename e)
    (log_entry (log_now e) btc_price_last eth_price_last btc_last eth_last
       mix_last eth_btc_ratio btc_return_pct eth_return_pct diff_pct);;
  (* Download Button *)
  content ← read_file (log_filename e);
  emit (DownloadButton (default [] content)
          ("crypto_tracker_" +:+ log_today e +:+ ".csv"));;
  emit (Logged (log_filename e));;
  emit Markdown;;
  emit Caption.

(** The whole script, from line 64 on; lines 11-38 set the page up and
    yield [snapshot_choice]. *)
Definition script (e : env) : M unit :=
  dfs ← load_data e;
  pipeline e dfs.1 dfs.2.

(** One page load on the files [fs]: how it ended, the files it left and
    what it showed and requested. *)
Definition run (e : env) (fs : gmap string pd.csv) : outcome unit * world :=
  script e {| files := fs; trace := [] |}.

(** Successive page loads share nothing but the file system. *)
Definition session (es : list env) (fs : gmap string pd.csv) : gmap string pd.csv :=
  foldl (λ fs e, files (run e fs).2) fs es.

(** Every page load of the session ran to its last line. *)
Fixpoint all_done (es : list env) (fs : gmap string pd.csv) : Prop :=
  match es with
  | [] => True
  | e :: es' => (run e fs).1 = Done tt ∧ all_done es' (files (run e fs).2)
  end.

(** ** Well-formed inputs *)

(** A value that is not missing. *)
Definition notna (x : float) : Prop := isna x = false.

(** A series that holds at least one price: for pandas a row whose price
    is NaN is a missing observation. *)
Definition has_price (s : pd.price_df) : Prop := Exists notna (s.*2).

(** Two series that [pd.concat] can join: the same timestamps in the same
    order, or no timestamp twice in either. *)
Definition joinable (btc_df eth_df : pd.price_df) : Prop :=
  btc_df.*1 = eth_df.*1 ∨ (NoDup (btc_df.*1) ∧ NoDup (eth_df.*1)).

(** The raw series multiplied by the constant [c]. *)
Definition scaled (c : float) (s : pd.price_df) : pd.price_df :=
  (λ '(t, p), (t, (c * p)%float)) <$> s.

(** The columns ["100% BTC"] and ["100% ETH"] of [portfolios], as
    functions of the two raw series (lines 87-95). *)
Definition portfolio_btc (btc_df eth_df : pd.price_df) : result (list float) :=
  data ← combine btc_df eth_df;
  normalized (pd.BTC_USD data).

Definition portfolio_eth (btc_df eth_df : pd.price_df) : result (list float) :=
  data ← combine btc_df eth_df;
  normalized (pd.ETH_USD data).

(** The prices of a series are all scaled exactly by [c]. *)
Definition scaled_exactly (c : float) (s : pd.price_df) : Prop :=
  Forall (λ p, exact_product c p = true) (s.*2).

(** ** Classifying replies, events and log lines *)

(** The replies on which [get_binance_data] raises: no response, a 4xx or
    5xx status, or a body that cannot be decoded. *)
Definition fetch_fails (o : http_outcome) : bool :=
  match o with
  | NoResponse => true
  | Response status body =>
      (400 <=? status) && (status <? 600) || bool_decide (body = None)
  end.

(** A non-2xx status. *)
Definition non_2xx (status : Z) : bool := negb ((200 <=? status) && (status <? 300)).

Definition is_http_get (ev : event) : Prop := ∃ symbol, ev = HttpGet symbol.

Definition not_http (ev : event) : Prop :=
  match ev with HttpGet _ => False | _ => True end.

Definition is_chart (ev : event) : Prop := ∃ title traces, ev = PlotlyChart title traces.

(** A data row of the daily log. *)
Definition is_log_entry (row : list pd.cell) : Prop :=
  ∃ ts a b c d e f g h i, row = log_entry ts a b c d e f g h i.

(** ** Concrete inputs used in examples *)

(** Python's [1.1]. *)
Definition c_1_1 : float := 0x1.199999999999ap+0%float.

(** The frame that the script builds from a snapshot whose single BTC
    price reads [inf]. *)
Definition frame_with_inf : pd.frame :=
  {| pd.index := [0]; pd.BTC_USD := [infinity]; pd.ETH_USD := [1%float] |}.

Definition btc_9am : pd.price_df := [(0, 100%float); (3600000, 110%float)].
Definition eth_9am : pd.price_df := [(0, 10%float); (3600000, 12%float)].
Definition btc_10am : pd.price_df :=
  [(0, 100%float); (3600000, 110%float); (7200000, 105%float)].
Definition eth_10am : pd.price_df :=
  [(0, 10%float); (3600000, 12%float); (7200000, 13%float)].

(** A page load in live mode on 2024-01-01, given the two replies. *)
Definition live_on_jan_1 (btc_reply eth_reply : http_outcome) : env :=
  {| snapshot_choice := "Today (Live)";
     binance := λ symbol, if String.eqb symbol "BTCUSDT" then btc_reply else eth_reply;
     snapshot_today := "2024-01-01";
     log_today := "2024-01-01";
     log_now := "2024-01-01 10:00:00" |}.

(** A page load on 2024-01-02 that views the snapshot of 2024-01-01. *)
Definition frozen_jan_1 (btc_reply eth_reply : http_outcome) : env :=
  {| snapshot_choice := "2024-01-01";
     binance := λ symbol, if String.eqb symbol "BTCUSDT" then btc_reply else eth_reply;
     snapshot_today := "2024-01-02";
     log_today := "2024-01-02";
     log_now := "2024-01-02 09:00:00" |}.

(** ** The snapshot selector (lines 31-38) *)

(** [s.split(sep)] for a one-character separator: at least one piece. *)
Fixpoint split_on (sep : Ascii.ascii) (s : string) : list string :=
  match s with
  | EmptyString => [EmptyString]
  | String c s' =>
      if Ascii.eqb c sep then EmptyString :: split_on sep s'
      else match split_on sep s' with
           | piece :: pieces => String c piece :: pieces
           | [] => [String c EmptyString]
           end
  end.

(** [s.endswith(suffix)] *)
Fixpoint endswith (s suffix : string) : bool :=
  String.eqb s suffix
  || match s with
     | EmptyString => false
     | String _ s' => endswith s' suffix
     end.

(** [f.split("_")[-1].split(".")[0]], line 33. *)
Definition snapshot_date (f : string) : string :=
  hd "" (split_on "."%char (default "" (last (split_on "_"%char f)))).

(** What is left of [path] after the leading [p], if [path] starts with it. *)
Fixpoint strip_prefix (p path : string) : option string :=
  match p, path with
  | EmptyString, _ => Some path
  | String a p', String b path' =>
      if Ascii.eqb a b then strip_prefix p' path' else None
  | String _ _, EmptyString => None
  end.

(** [os.listdir(dir)]: the names of the entries of [dir], each once, in the
    order the file system yields them. *)
Definition listdir (dir : string) (fs : gmap string pd.csv) : list string :=
  remove_dups
    (omap (λ path, (λ rest, hd "" (split_on "/"%char rest)) <$> strip_prefix (dir +:+ "/") path)
          (map_to_list fs).*1).

(** [sorted(list(set(...)), reverse=True)] on strings. *)
Fixpoint insert_desc (d : string) (l : list string) : list string :=
  match l with
  | [] => [d]
  | x :: r =>
      if decide (d = x) then l
      else if String.leb x d then d :: l
      else x :: insert_desc d r
  end.

Definition sorted_set_desc (l : list string) : list string := foldr insert_desc [] l.

(** Lines 31-35. *)
Definition available_files (fs : gmap string pd.csv) : list string :=
  filter (λ f, endswith f ".csv" = true) (listdir raw_data_dir fs).

Definition available_dates (fs : gmap string pd.csv) : list string :=
  sorted_set_desc (snapshot_date <$> available_files fs).

(** Line 37: the options of the select box. *)
Definition selectbox_options (fs : gmap string pd.csv) : list string :=
  "Today (Live)" :: available_dates fs.

(** ** Further vocabulary for properties *)

Definition has_char (c : Ascii.ascii) (s : string) : Prop := c ∈ String.list_ascii_of_string s.

(** What [strftime("%Y-%m-%d")] prints: digits and hyphens. *)
Definition date_char (c : Ascii.ascii) : bool :=
  Ascii.eqb c "-"%char || ((48 <=? Ascii.nat_of_ascii c)%nat && (Ascii.nat_of_ascii c <=? 57)%nat).

Definition date_like (d : string) : Prop :=
  Forall (λ c, date_char c = true) (String.list_ascii_of_string d).

(** A daily log in its format: the header, then data rows. *)
Definition log_ok (content : option pd.csv) : Prop :=
  match content with
  | None => True
  | Some lines => ∃ rows, lines = log_header :: rows ∧ Forall is_log_entry rows
  end.

(** A column without any value. *)
Definition all_nan (col : list float) : Prop := Forall (λ x, x = nan) col.


(** Newest first, each once. *)
Definition newest_first (ds : list string) : Prop :=
  StronglySorted (λ a b, strict String.le b a) ds.

(* ================================================================== *)
(** * Part II: verification                                            *)
(* ================================================================== *)

(** ** Binary64 facts, from the specification of the primitive floats *)

Module Float64Facts.
Local Open Scope float_scope.

Lemma Prim2SF_nan : Prim2SF nan = S754_nan.
Proof. reflexivity. Qed.

Lemma Prim2SF_infinity : Prim2SF infinity = S754_infinity false.
Proof. reflexivity. Qed.

Lemma Prim2SF_zero : Prim2SF zero = S754_zero false.
Proof. reflexivity. Qed.

Lemma Prim2SF_one : Prim2SF 1 = S754_finite false pow2_52 (-52).
Proof. reflexivity. Qed.

Lemma neq_by_eqb (x y : float) : Leibniz.eqb x y = false → x ≠ y.
Proof.
  intros H ->. assert (Leibniz.eqb y y = true) by now apply Leibniz.eqb_spec.
  congruence.
Qed.

(** *** Comparison *)

Lemma SFcompare_refl x : x ≠ S754_nan → SFcompare x x = Some Eq.
Proof.
  destruct x as [s|s| |s m e]; intros H; try congruence.
  - reflexivity.
  - now destruct s.
  - unfold SFcompare. rewrite Z.compare_refl.
    change (Pos.compare_cont Eq m m) with (Pos.compare m m).
    rewrite Pos.compare_refl. now destruct s.
Qed.

Lemma SFcompare_Eq_sym x y :
  SFcompare x y = Some Eq → SFcompare y x = Some Eq.
Proof.
  destruct x as [s1|s1| |s1 m1 e1], y as [s2|s2| |s2 m2 e2]; cbn;
    try discriminate; try reflexivity;
    try (now destruct s1); try (now destruct s2).
  - now destruct s1, s2.
  - change (Pos.compare_cont Eq m1 m2) with (Pos.compare m1 m2).
    change (Pos.compare_cont Eq m2 m1) with (Pos.compare m2 m1).
    rewrite (Z.compare_antisym e1 e2), (Pos.compare_antisym m1 m2).
    destruct s1, s2; try discriminate;
      destruct (e1 ?= e2)%Z; cbn; try discriminate;
      destruct (m1 ?= m2)%positive; cbn; try discriminate; reflexivity.
Qed.

Lemma ltb_irrefl x : (x <? x) = false.
Proof.
  rewrite ltb_spec. unfold SFltb.
  destruct (Prim2SF x) as [s|s| |s m e] eqn:E; try reflexivity;
    rewrite SFcompare_refl by discriminate; reflexivity.
Qed.

Lemma ltb_of_eqb x y : (x =? y) = true → (y <? x) = false.
Proof.
  rewrite FloatAxioms.eqb_spec, ltb_spec. unfold SFeqb, SFltb.
  destruct (SFcompare (Prim2SF x) (Prim2SF y)) as [[]|] eqn:E; try discriminate.
  intros _. now rewrite (SFcompare_Eq_sym _ _ E).
Qed.

(** *** NaN *)

Lemma is_nan_spec x : is_nan x = true ↔ x = nan.
Proof.
  unfold is_nan. rewrite FloatAxioms.eqb_spec. split.
  - intros H. apply Prim2SF_inj. rewrite Prim2SF_nan.
    unfold SFeqb in H. revert H.
    destruct (Prim2SF x) as [s|s| |s m e]; try reflexivity;
      rewrite SFcompare_refl by discriminate; discriminate.
  - intros ->. reflexivity.
Qed.

Lemma isna_true x : isna x = true → x = nan.
Proof. apply is_nan_spec. Qed.

Lemma isna_nan : isna nan = true.
Proof. reflexivity. Qed.

Lemma isna_false_finite x s m e : Prim2SF x = S754_finite s m e → isna x = false.
Proof.
  intros E. destruct (isna x) eqn:H; [|done].
  apply isna_true in H. subst x. discriminate.
Qed.

Lemma mul_nan_r c : c * nan = nan.
Proof.
  apply Prim2SF_inj. rewrite mul_spec, Prim2SF_nan. now destruct (Prim2SF c).
Qed.

Lemma div_nan_l y : nan / y = nan.
Proof. apply Prim2SF_inj. now rewrite div_spec, Prim2SF_nan. Qed.

Lemma div_nan_r x : x / nan = nan.
Proof.
  apply Prim2SF_inj. rewrite div_spec, Prim2SF_nan. now destruct (Prim2SF x).
Qed.

(** *** Addition commutes *)

Lemma SFadd_comm x y : SF64add x y = SF64add y x.
Proof.
  unfold SF64add, SFadd.
  destruct x as [sx|sx| |sx mx ex], y as [sy|sy| |sy my ey];
    try reflexivity; try (now destruct sx, sy).
  rewrite (Z.min_comm ex ey), Z.add_comm. reflexivity.
Qed.

Lemma add_comm x y : x + y = y + x.
Proof. apply Prim2SF_inj. rewrite !add_spec. apply SFadd_comm. Qed.

(** *** A finite nonzero number divided by itself is exactly 1 *)

Lemma finite_nonzero_inv x :
  is_finite x = true → nonzero x = true →
  ∃ s m e, Prim2SF x = S754_finite s m e.
Proof.
  unfold nonzero, is_finite, is_zero, is_infinity, is_nan.
  rewrite !FloatAxioms.eqb_spec, abs_spec, Prim2SF_infinity, Prim2SF_zero.
  destruct (Prim2SF x) as [s|s| |s m e]; cbn.
  - discriminate.
  - destruct s; discriminate.
  - discriminate.
  - eauto.
Qed.

Lemma div_eucl_shiftl_self (m : positive) :
  Z.div_eucl (Z.shiftl (Z.pos m) 53) (Z.pos m) = (9007199254740992, 0)%Z.
Proof.
  rewrite Z.shiftl_mul_pow2 by lia.
  change (2 ^ 53)%Z with 9007199254740992%Z. rewrite Z.mul_comm.
  pose proof (Z.div_mul 9007199254740992 (Z.pos m) ltac:(lia)) as Hq.
  pose proof (Z.mod_mul 9007199254740992 (Z.pos m) ltac:(lia)) as Hr.
  unfold Z.div, Z.modulo in Hq, Hr.
  destruct (Z.div_eucl _ _) as [q r]. congruence.
Qed.

Lemma SFdiv_self s m e :
  SF64div (S754_finite s m e) (S754_finite s m e)
  = S754_finite false pow2_52 (-52).
Proof.
  unfold SF64div, SFdiv, SFdiv_core_binary.
  replace (Z.min _ _) with (-53)%Z.
  2:{ replace (Zdigits2 (Z.pos m) + e - (Zdigits2 (Z.pos m) + e))%Z
        with 0%Z by lia.
      rewrite Z.sub_diag. reflexivity. }
  replace (e - e - -53)%Z with 53%Z by lia.
  rewrite div_eucl_shiftl_self.
  assert (new_location (Z.pos m) 0 = loc_Exact) as ->.
  { unfold new_location. now destruct (Z.even (Z.pos m)). }
  now destruct s.
Qed.

Lemma div_self x : is_finite x = true → nonzero x = true → x / x = 1.
Proof.
  intros Hf Hz. destruct (finite_nonzero_inv x Hf Hz) as (s & m & e & E).
  apply Prim2SF_inj. rewrite div_spec, E, Prim2SF_one. apply SFdiv_self.
Qed.

End Float64Facts.
Import Float64Facts.

(** ** Rounding, from the specification of the primitive floats

    [SFdiv] and [SFmul] truncate an exact quotient or product to a shift
    record and round it.  The record at the exponent of the format depends
    only on the value that is rounded, which gives: a quotient depends only
    on the ratio of its operands, [x / 1 = x], and rounding makes no NaN. *)

Module Rounding.

(** *** Shift records: shifting right divides by two *)

Lemma shr_1_div2 m r s : 0 ≤ m →
  shr_1 {| shr_m := m; shr_r := r; shr_s := s |}
  = {| shr_m := m / 2; shr_r := Z.odd m; shr_s := r || s |}.
Proof.
  intros Hm. destruct m as [|[p|p|]|p]; try lia; cbn [shr_1].
  - reflexivity.
  - f_equal. rewrite Pos2Z.inj_xI. apply Z.div_unique with 1; lia.
  - f_equal. rewrite Pos2Z.inj_xO. apply Z.div_unique with 0; lia.
  - reflexivity.
Qed.

Lemma quot_record_shr_1 A B : 0 ≤ A → 0 < B → shr_1 (quot_record A B) = quot_record A (2 * B).
Proof.
  intros HA HB. unfold quot_record. rewrite shr_1_div2 by (apply Z.div_pos; lia).
  assert (A mod (2 * B) = A mod B + B * ((A / B) mod 2)) as Hmod.
  { rewrite (Z.mul_comm 2 B). apply Z.rem_mul_r; lia. }
  pose proof (Z.mod_pos_bound A B HB) as Hr.
  pose proof (Z.mod_pos_bound (A / B) 2 ltac:(lia)) as Hbit.
  f_equal.
  - rewrite Z.div_div by lia. f_equal. lia.
  - rewrite Hmod, Zodd_mod.
    destruct (Z.eqb_spec ((A / B) mod 2) 1) as [->|Hne]; symmetry;
      [apply Z.leb_le | apply Z.leb_gt]; nia.
  - rewrite Z.mul_mod_distr_l by lia.
    assert ((A mod (2 * B)) mod B = A mod B) as ->.
    { rewrite Hmod, (Z.mul_comm B), Z.mod_add by lia. apply Z.mod_mod. lia. }
    destruct (Z.eqb_spec (A mod B) 0) as [->|Hne].
    + cbn. destruct B; try lia; reflexivity.
    + transitivity true.
      * destruct (Z.leb_spec B (2 * (A mod B))); [done|].
        rewrite Z.mod_small by lia. cbn.
        destruct (Z.eqb_spec (2 * (A mod B)) 0); [lia|done].
      * symmetry. apply negb_true_iff, Z.eqb_neq. lia.
Qed.

Lemma quot_record_iter_shr_1 p : ∀ A B, 0 ≤ A → 0 < B →
  SpecFloat.iter_pos shr_1 p (quot_record A B) = quot_record A (B * 2 ^ Z.pos p).
Proof.
  induction p as [p IH|p IH|]; intros A B HA HB; cbn [SpecFloat.iter_pos].
  - assert (0 < 2 ^ Z.pos p) by (apply Z.pow_pos_nonneg; lia).
    rewrite quot_record_shr_1, !IH by nia.
    f_equal. replace (Z.pos p~1) with (1 + Z.pos p + Z.pos p) by lia.
    rewrite !Z.pow_add_r by lia. change (2 ^ 1) with 2. ring.
  - assert (0 < 2 ^ Z.pos p) by (apply Z.pow_pos_nonneg; lia).
    rewrite !IH by nia.
    f_equal. replace (Z.pos p~0) with (Z.pos p + Z.pos p) by lia.
    rewrite !Z.pow_add_r by lia. ring.
  - rewrite quot_record_shr_1 by done. f_equal. change (2 ^ 1) with 2. lia.
Qed.

Lemma quot_record_mul_cancel A B k : 0 < B → 0 < k → quot_record (A * k) (B * k) = quot_record A B.
Proof.
  intros HB Hk. unfold quot_record.
  rewrite Z.div_mul_cancel_r, Z.mul_mod_distr_r by lia.
  replace (2 * (A mod B * k)) with ((2 * (A mod B)) * k) by ring.
  rewrite Z.mul_mod_distr_r by lia.
  pose proof (Z.mod_pos_bound A B HB).
  pose proof (Z.mod_pos_bound (2 * (A mod B)) B HB).
  f_equal.
  - destruct (Z.leb_spec B (2 * (A mod B))); [apply Z.leb_le | apply Z.leb_gt]; nia.
  - f_equal.
    destruct (Z.eqb_spec ((2 * (A mod B)) mod B) 0) as [->|Hne]; [done|].
    apply Z.eqb_neq. nia.
Qed.

Lemma quot_record_same_ratio A B A' B' :
  0 < B → 0 < B' → A * B' = A' * B → quot_record A B = quot_record A' B'.
Proof.
  intros HB HB' H.
  rewrite <- (quot_record_mul_cancel A B B'), <- (quot_record_mul_cancel A' B' B) by done.
  rewrite H. f_equal. ring.
Qed.

Lemma quot_record_of_loc m2 q r :
  0 < m2 → 0 ≤ r < m2 →
  shr_record_of_loc q (new_location m2 r) = quot_record (m2 * q + r) m2.
Proof.
  intros Hm Hr. unfold quot_record.
  assert ((m2 * q + r) / m2 = q) as -> by (symmetry; apply Z.div_unique with r; lia).
  assert ((m2 * q + r) mod m2 = r) as -> by (symmetry; apply Z.mod_unique with q; lia).
  assert (2 * r < m2 → (2 * r) mod m2 = 2 * r) as Hsmall
    by (intros; apply Z.mod_small; lia).
  assert (m2 ≤ 2 * r → (2 * r) mod m2 = 2 * r - m2) as Hbig.
  { intros. symmetry. apply Z.mod_unique with 1; lia. }
  unfold new_location, new_location_even, new_location_odd.
  destruct (Z.even m2) eqn:Heven; cbv beta;
    destruct (Z.eqb_spec r 0) as [->|Hr0].
  - cbn. rewrite Z.mod_0_l by lia. f_equal. symmetry. apply Z.leb_gt. lia.
  - destruct (Z.compare_spec (2 * r) m2) as [E|E|E]; cbn; f_equal;
      try (symmetry; apply Z.leb_le; lia); try (symmetry; apply Z.leb_gt; lia).
    + rewrite Hbig by lia. replace (2 * r - m2) with 0 by lia. done.
    + rewrite Hsmall by lia. symmetry. apply negb_true_iff, Z.eqb_neq. lia.
    + rewrite Hbig by lia. symmetry. apply negb_true_iff, Z.eqb_neq. lia.
  - cbn. rewrite Z.mod_0_l by lia. f_equal. symmetry. apply Z.leb_gt. lia.
  - assert (2 * r ≠ m2) as Hodd.
    { intros E. rewrite <- E, Z.even_mul in Heven. done. }
    destruct (Z.compare_spec (2 * r + 1) m2) as [E|E|E]; cbn; f_equal;
      try (symmetry; apply Z.leb_le; lia); try (symmetry; apply Z.leb_gt; lia).
    + rewrite Hsmall by lia. symmetry. apply negb_true_iff, Z.eqb_neq. lia.
    + rewrite Hsmall by lia. symmetry. apply negb_true_iff, Z.eqb_neq. lia.
    + rewrite Hbig by lia. symmetry. apply negb_true_iff, Z.eqb_neq. lia.
Qed.

(** *** The number of digits *)

Lemma digits2_pos_size p : digits2_pos p = Pos.size p.
Proof. induction p; cbn; congruence. Qed.

Lemma Zdigits2_log2 n : 0 < n → Zdigits2 n = Z.log2 n + 1.
Proof.
  destruct n as [|p|p]; try lia. intros _. cbn [Zdigits2].
  rewrite digits2_pos_size. destruct p; cbn; lia.
Qed.

Lemma Zdigits2_bounds n d : 0 < n → 2 ^ (d - 1) ≤ n < 2 ^ d → Zdigits2 n = d.
Proof.
  intros Hn H. rewrite Zdigits2_log2 by done.
  assert (0 < d).
  { destruct (Z.ltb_spec 0 d); [done|]. rewrite (Z.pow_neg_r 2 (d - 1)) in H by lia.
    assert (2 ^ d ≤ 1); [|lia]. 
    destruct (Z.eqb_spec d 0) as [->|]; [done|]. rewrite Z.pow_neg_r by lia. lia. }
  rewrite (Z.log2_unique n (d - 1)); [lia|lia|].
  replace (Z.succ (d - 1)) with d by lia. done.
Qed.

Lemma Zdigits2_spec n : 0 < n → 2 ^ (Zdigits2 n - 1) ≤ n < 2 ^ Zdigits2 n.
Proof.
  intros Hn. rewrite Zdigits2_log2 by done.
  replace (Z.log2 n + 1 - 1) with (Z.log2 n) by lia.
  replace (Z.log2 n + 1) with (Z.succ (Z.log2 n)) by lia.
  by apply Z.log2_spec.
Qed.

Lemma Zdigits2_nonneg n : 0 ≤ Zdigits2 n.
Proof. destruct n; cbn; lia. Qed.

Lemma Zdigits2_pos n : 0 < n → 0 < Zdigits2 n.
Proof. destruct n; cbn; lia. Qed.

Lemma Zdigits2_le_upper n d : 0 ≤ n → 0 ≤ d → n < 2 ^ d → Zdigits2 n ≤ d.
Proof.
  intros Hn Hd H. destruct (Z.eqb_spec n 0) as [->|]; [done|].
  pose proof (Zdigits2_spec n ltac:(lia)) as [Hlo _].
  destruct (Z.leb_spec (Zdigits2 n) d); [done|].
  assert (2 ^ d ≤ 2 ^ (Zdigits2 n - 1)) by (apply Z.pow_le_mono_r; lia). lia.
Qed.

(** *** The record at the exponent of the format *)

Lemma fexp_eq z : fexp prec emax z = Z.max (z - 53) (-1074).
Proof. reflexivity. Qed.

Lemma shr_rec A B e n :
  0 ≤ A → 0 < B → 0 ≤ n → shr (quot_record A B) e n = (quot_record A (B * 2 ^ n), e + n).
Proof.
  intros HA HB Hn. destruct n as [|p|p]; [|..|lia]; cbn [shr].
  - by rewrite Z.mul_1_r, Z.add_0_r.
  - by rewrite quot_record_iter_shr_1.
Qed.

Lemma shr_to_eq A B e :
  0 ≤ A → 0 < B → admissible A B e →
  shr_to A B e
  = (quot_record A (B * 2 ^ (fexp prec emax (Zdigits2 (A / B) + e) - e)),
     fexp prec emax (Zdigits2 (A / B) + e)).
Proof.
  intros HA HB Hadm. unfold shr_to. unfold admissible in Hadm.
  rewrite shr_rec by lia. f_equal. lia.
Qed.

Lemma quot_shift_bounds A B j :
  0 ≤ A → 0 < B → 0 ≤ j →
  A / B * 2 ^ j ≤ A * 2 ^ j / B < (A / B + 1) * 2 ^ j.
Proof.
  intros HA HB Hj.
  assert (0 < 2 ^ j) as Hp by (apply Z.pow_pos_nonneg; lia).
  pose proof (Z.div_mod A B ltac:(lia)) as HAB.
  pose proof (Z.mod_pos_bound A B HB) as Hr.
  split.
  - apply Z.div_le_lower_bound; [done|]. nia.
  - apply Z.div_lt_upper_bound; [done|]. nia.
Qed.

Lemma digits_quot_shift A B j :
  0 ≤ A → 0 < B → 0 ≤ j → 0 < A / B →
  Zdigits2 (A * 2 ^ j / B) = Zdigits2 (A / B) + j.
Proof.
  intros HA HB Hj Hq.
  assert (0 < 2 ^ j) as Hp by (apply Z.pow_pos_nonneg; lia).
  pose proof (quot_shift_bounds A B j HA HB Hj) as [Hlo Hhi].
  pose proof (Zdigits2_spec (A / B) Hq) as [Hdlo Hdhi].
  pose proof (Zdigits2_pos (A / B) Hq) as Hd.
  apply Zdigits2_bounds; [nia|].
  replace (Zdigits2 (A / B) + j - 1) with ((Zdigits2 (A / B) - 1) + j) by lia.
  rewrite !Z.pow_add_r by lia. nia.
Qed.

Lemma digits_quot_shift_0 A B j :
  0 ≤ A → 0 < B → 0 ≤ j → A / B = 0 → Zdigits2 (A * 2 ^ j / B) ≤ j.
Proof.
  intros HA HB Hj Hq.
  pose proof (quot_shift_bounds A B j HA HB Hj) as [Hlo Hhi].
  rewrite Hq in Hhi. apply Zdigits2_le_upper; [|done|lia].
  apply Z.div_pos; [|done]. assert (0 < 2 ^ j) by (apply Z.pow_pos_nonneg; lia). nia.
Qed.

(** More quotient bits do not change the record at the format's exponent. *)
Lemma shr_to_refine A B e j :
  0 ≤ A → 0 < B → 0 ≤ j → admissible A B e →
  admissible (A * 2 ^ j) B (e - j)
  ∧ shr_to (A * 2 ^ j) B (e - j) = shr_to A B e.
Proof.
  intros HA HB Hj Hadm.
  assert (0 < 2 ^ j) as Hp by (apply Z.pow_pos_nonneg; lia).
  assert (fexp prec emax (Zdigits2 (A * 2 ^ j / B) + (e - j))
          = fexp prec emax (Zdigits2 (A / B) + e)) as Ht.
  { destruct (Z.eqb_spec (A / B) 0) as [Hq|Hq].
    - pose proof (digits_quot_shift_0 A B j HA HB Hj Hq) as Hd.
      pose proof (Zdigits2_nonneg (A * 2 ^ j / B)).
      unfold admissible in Hadm. rewrite Hq in *. cbn [Zdigits2] in *.
      rewrite !fexp_eq. rewrite fexp_eq in Hadm. lia.
    - assert (0 < A / B) by (pose proof (Z.div_pos A B HA HB); lia).
      rewrite digits_quot_shift by done. f_equal. lia. }
  assert (admissible (A * 2 ^ j) B (e - j)) as Hadm'.
  { unfold admissible in *. rewrite Ht. lia. }
  split; [done|].
  rewrite !shr_to_eq by (done || nia). rewrite Ht. f_equal.
  set (t := fexp prec emax (Zdigits2 (A / B) + e)) in *.
  unfold admissible in Hadm. fold t in Hadm.
  apply quot_record_same_ratio.
  - assert (0 < 2 ^ (t - (e - j))) by (apply Z.pow_pos_nonneg; lia). nia.
  - assert (0 < 2 ^ (t - e)) by (apply Z.pow_pos_nonneg; lia). nia.
  - replace (t - (e - j)) with ((t - e) + j) by lia.
    rewrite Z.pow_add_r by lia. ring.
Qed.

Lemma shr_to_same_ratio A B A' B' e :
  0 < B → 0 < B' → A * B' = A' * B →
  shr_to A B e = shr_to A' B' e
  ∧ (admissible A B e → admissible A' B' e).
Proof.
  intros HB HB' H.
  pose proof (quot_record_same_ratio A B A' B' HB HB' H) as Hrec.
  assert (A / B = A' / B') as Hq by exact (f_equal shr_m Hrec).
  unfold shr_to, admissible. rewrite Hq, Hrec. done.
Qed.

(** The record at the format's exponent depends only on the value
    [A / B * 2 ^ e]. *)
Lemma shr_to_value A B e A' B' e' :
  0 ≤ A → 0 < B → 0 ≤ A' → 0 < B' →
  admissible A B e → admissible A' B' e' →
  A * B' * 2 ^ Z.max 0 (e - e') = A' * B * 2 ^ Z.max 0 (e' - e) →
  shr_to A B e = shr_to A' B' e'.
Proof.
  intros HA HB HA' HB' Hadm Hadm' H.
  destruct (Z.le_ge_cases e' e) as [Hle|Hle].
  - rewrite (Z.max_r 0 (e - e')), (Z.max_l 0 (e' - e)) in H by lia.
    rewrite Z.pow_0_r, Z.mul_1_r in H.
    destruct (shr_to_refine A B e (e - e') HA HB ltac:(lia) Hadm) as [_ <-].
    replace (e - (e - e')) with e' by lia.
    apply shr_to_same_ratio; [done..|]. lia.
  - rewrite (Z.max_l 0 (e - e')), (Z.max_r 0 (e' - e)) in H by lia.
    rewrite Z.pow_0_r, Z.mul_1_r in H.
    destruct (shr_to_refine A' B' e' (e' - e) HA' HB' ltac:(lia) Hadm') as [_ <-].
    replace (e' - (e' - e)) with e by lia.
    apply shr_to_same_ratio; [done..|]. lia.
Qed.

(** *** Division *)

Lemma Zdigits2_ge_lower n k : 0 < n → 2 ^ (k - 1) ≤ n → k ≤ Zdigits2 n.
Proof.
  intros Hn Hk. pose proof (Zdigits2_spec n Hn) as [_ Hhi].
  pose proof (Zdigits2_pos n Hn).
  destruct (Z.leb_spec k (Zdigits2 n)); [done|].
  assert (2 ^ Zdigits2 n ≤ 2 ^ (k - 1)) by (apply Z.pow_le_mono_r; lia). lia.
Qed.

Lemma binary_round_aux_tail sx m e l :
  binary_round_aux prec emax sx m e l = round_tail sx (shr_fexp prec emax m e l).
Proof. reflexivity. Qed.

Lemma shr_m_of_loc q l : shr_m (shr_record_of_loc q l) = q.
Proof. by destruct l as [|[]]. Qed.

Lemma shr_fexp_rec q e l A B :
  shr_record_of_loc q l = quot_record A B → shr_fexp prec emax q e l = shr_to A B e.
Proof.
  intros H. unfold shr_fexp, shr_to. rewrite H.
  by rewrite <- (shr_m_of_loc q l), H.
Qed.

Lemma div_exp_admissible m1 e1 m2 e2 :
  let e' := div_exp m1 e1 m2 e2 in
  admissible (Z.pos m1 * 2 ^ (e1 - e2 - e')) (Z.pos m2) e'.
Proof.
  intros e'. unfold admissible.
  set (s := e1 - e2 - e').
  assert (0 ≤ s) as Hs by (unfold s, e', div_exp; lia).
  assert (0 < 2 ^ s) as Hp by (apply Z.pow_pos_nonneg; lia).
  set (d1 := Zdigits2 (Z.pos m1)). set (d2 := Zdigits2 (Z.pos m2)).
  pose proof (Zdigits2_spec (Z.pos m1) ltac:(lia)) as [H1lo H1hi].
  pose proof (Zdigits2_spec (Z.pos m2) ltac:(lia)) as [H2lo H2hi].
  pose proof (Zdigits2_pos (Z.pos m1) ltac:(lia)) as Hd1.
  pose proof (Zdigits2_pos (Z.pos m2) ltac:(lia)) as Hd2.
  fold d1 in H1lo, H1hi, Hd1. fold d2 in H2lo, H2hi, Hd2.
  assert (e' ≤ fexp prec emax (d1 + e1 - (d2 + e2))) as He'
    by (unfold e', div_exp; fold d1 d2; lia).
  set (q := Z.pos m1 * 2 ^ s / Z.pos m2).
  assert (0 ≤ q) as Hq0 by (apply Z.div_pos; nia).
  assert (2 ^ (d1 - 1 + s) ≤ Z.pos m1 * 2 ^ s) as HA.
  { rewrite Z.pow_add_r by lia. nia. }
  destruct (Z.eqb_spec q 0) as [Hq|Hq].
  - rewrite Hq. cbn [Zdigits2].
    assert (Z.pos m1 * 2 ^ s < Z.pos m2) as Hlt.
    { apply Z.div_small_iff in Hq; lia. }
    assert (d1 - 1 + s < d2) as Hd.
    { apply (Z.pow_lt_mono_r_iff 2); lia. }
    rewrite fexp_eq in *. unfold s in Hd. lia.
  - assert (d1 + s - d2 ≤ Zdigits2 q) as Hd.
    { destruct (Z.leb_spec d2 (d1 - 1 + s)) as [Hge|Hlt].
      - apply Zdigits2_ge_lower; [lia|].
        apply Z.div_le_lower_bound; [lia|].
        assert (2 ^ (d1 - 1 + s) = 2 ^ (d1 + s - d2 - 1) * 2 ^ d2) as E.
        { rewrite <- Z.pow_add_r by lia. f_equal. lia. }
        assert (0 < 2 ^ (d1 + s - d2 - 1)) by (apply Z.pow_pos_nonneg; lia).
        nia.
      - pose proof (Zdigits2_pos q ltac:(lia)). lia. }
    rewrite fexp_eq in *. unfold s in Hd. lia.
Qed.

Lemma SFdiv_finite s1 m1 e1 s2 m2 e2 :
  let e' := div_exp m1 e1 m2 e2 in
  SF64div (S754_finite s1 m1 e1) (S754_finite s2 m2 e2)
  = round_tail (xorb s1 s2) (shr_to (Z.pos m1 * 2 ^ (e1 - e2 - e')) (Z.pos m2) e').
Proof.
  intros e'. unfold SF64div, SFdiv, SFdiv_core_binary. fold (div_exp m1 e1 m2 e2). fold e'.
  set (s := e1 - e2 - e').
  assert (0 ≤ s) as Hs by (unfold s, e', div_exp; lia).
  assert (match s with
          | 0 => Z.pos m1
          | Z.pos _ => Z.shiftl (Z.pos m1) s
          | Z.neg _ => 0
          end = Z.pos m1 * 2 ^ s) as ->.
  { destruct s; [lia| |lia]. by rewrite Z.shiftl_mul_pow2. }
  pose proof (Z.div_mod (Z.pos m1 * 2 ^ s) (Z.pos m2) ltac:(lia)) as Hdm.
  pose proof (Z.mod_pos_bound (Z.pos m1 * 2 ^ s) (Z.pos m2) ltac:(lia)) as Hr.
  unfold Z.div, Z.modulo in Hdm, Hr.
  destruct (Z.div_eucl (Z.pos m1 * 2 ^ s) (Z.pos m2)) as [q r].
  rewrite binary_round_aux_tail. f_equal.
  apply shr_fexp_rec. rewrite Hdm. apply quot_record_of_loc; lia.
Qed.

Lemma pow2_pos n : 0 ≤ n → 0 < 2 ^ n.
Proof. intros. apply Z.pow_pos_nonneg; lia. Qed.

(** [SFdiv] depends only on the sign and on the ratio of its operands:
    [m1 * 2^e1 / (m2 * 2^e2) = m1' * 2^e1' / (m2' * 2^e2')], stated on
    integers. *)
Lemma SFdiv_same_ratio s1 m1 e1 s2 m2 e2 s1' m1' e1' s2' m2' e2' :
  xorb s1 s2 = xorb s1' s2' →
  Z.pos m1 * Z.pos m2' * 2 ^ Z.max 0 ((e1 + e2') - (e1' + e2))
  = Z.pos m1' * Z.pos m2 * 2 ^ Z.max 0 ((e1' + e2) - (e1 + e2')) →
  SF64div (S754_finite s1 m1 e1) (S754_finite s2 m2 e2)
  = SF64div (S754_finite s1' m1' e1') (S754_finite s2' m2' e2').
Proof.
  intros Hs H. rewrite !SFdiv_finite, Hs. f_equal.
  set (e := div_exp m1 e1 m2 e2). set (e' := div_exp m1' e1' m2' e2').
  assert (0 ≤ e1 - e2 - e) as Hs1 by (unfold e, div_exp; lia).
  assert (0 ≤ e1' - e2' - e') as Hs2 by (unfold e', div_exp; lia).
  pose proof (pow2_pos _ Hs1). pose proof (pow2_pos _ Hs2).
  apply shr_to_value; try apply div_exp_admissible; try nia.
  set (P := 2 ^ Z.max 0 ((e1 + e2') - (e1' + e2))) in *.
  set (Q := 2 ^ Z.max 0 ((e1' + e2) - (e1 + e2'))) in *.
  assert (0 < P) by (apply pow2_pos; lia).
  assert (0 < Q) by (apply pow2_pos; lia).
  assert (2 ^ (e1 - e2 - e) * 2 ^ Z.max 0 (e - e') * Q
          = 2 ^ (e1' - e2' - e') * 2 ^ Z.max 0 (e' - e) * P) as HP.
  { unfold P, Q. rewrite <- !Z.pow_add_r by lia. f_equal. lia. }
  apply (Z.mul_reg_r _ _ (P * Q)); [nia|].
  transitivity ((Z.pos m1 * Z.pos m2' * P)
                * (2 ^ (e1 - e2 - e) * 2 ^ Z.max 0 (e - e') * Q)); [ring|].
  rewrite H, HP. ring.
Qed.

(** *** Division by one *)






(** *** Exact products *)

Lemma round_tail_cases sx p :
  (∃ m e, round_tail sx p = S754_finite sx m e)
  ∨ round_tail sx p = S754_zero sx
  ∨ round_tail sx p = S754_infinity sx
  ∨ round_tail sx p = S754_nan.
Proof.
  unfold round_tail. destruct p as [mrs e].
  destruct (shr_fexp _ _ _ _ _) as [mrs' e'].
  destruct (shr_m mrs'); [auto| |auto].
  destruct (_ <=? _); eauto 6.
Qed.

Lemma positive_finite_inv c :
  (0 <? c)%float = true → is_finite c = true →
  ∃ m e, Prim2SF c = S754_finite false m e.
Proof.
  unfold is_finite, is_infinity, is_nan.
  rewrite ltb_spec, !FloatAxioms.eqb_spec, abs_spec.
  change (Prim2SF 0) with (S754_zero false).
  change (Prim2SF infinity) with (S754_infinity false).
  destruct (Prim2SF c) as [s|s| |s m e]; cbn; try discriminate.
  - destruct s; discriminate.
  - destruct s; [discriminate|]. eauto.
Qed.

Lemma SFmul_finite sx mx ex sy my ey :
  SF64mul (S754_finite sx mx ex) (S754_finite sy my ey)
  = round_tail (xorb sx sy)
      (shr_fexp prec emax (Z.pos (mx * my)) (ex + ey) loc_Exact).
Proof. reflexivity. Qed.

Lemma exact_product_inv c x mc ec sx mx ex :
  Prim2SF c = S754_finite false mc ec →
  Prim2SF x = S754_finite sx mx ex →
  exact_product c x = true →
  ∃ mp ep,
    Prim2SF (c * x) = S754_finite sx mp ep
    ∧ Z.pos mc * Z.pos mx * 2 ^ Z.max 0 (ec + ex - ep)
      = Z.pos mp * 2 ^ Z.max 0 (ep - (ec + ex)).
Proof.
  intros Ec Ex. unfold exact_product. rewrite Ec, Ex.
  destruct (Prim2SF (c * x)) as [| | |sp mp ep] eqn:Ep; try discriminate.
  intros H%Z.eqb_eq. exists mp, ep. split; [|done].
  rewrite mul_spec, Ec, Ex, SFmul_finite in Ep. cbn [xorb] in Ep.
  destruct (round_tail_cases sx
              (shr_fexp prec emax (Z.pos (mc * mx)) (ec + ex) loc_Exact))
    as [(m & e & E)|[E|[E|E]]]; congruence.
Qed.

(** Scaling by a positive finite constant, when the two products are
    exact, does not change a quotient. *)
Lemma div_scaled c x y :
  (0 <? c)%float = true → is_finite c = true →
  exact_product c x = true → exact_product c y = true →
  ((c * x) / (c * y) = x / y)%float.
Proof.
  intros Hpos Hfin Hx Hy.
  destruct (positive_finite_inv c Hpos Hfin) as (mc & ec & Ec).
  apply Prim2SF_inj. rewrite !div_spec.
  destruct (Prim2SF x) as [sx|sx| |sx mx ex] eqn:Ex;
    destruct (Prim2SF y) as [sy|sy| |sy my ey] eqn:Ey;
    try (destruct (exact_product_inv c x mc ec _ _ _ Ec Ex Hx) as (mp & ep & -> & Hp));
    try (destruct (exact_product_inv c y mc ec _ _ _ Ec Ey Hy) as (mq & eq & -> & Hq));
    rewrite ?mul_spec, ?Ec, ?Ex, ?Ey; try reflexivity.
  apply SFdiv_same_ratio; [done|].
  set (a1 := Z.max 0 (ec + ex - ep)) in *. set (b1 := Z.max 0 (ep - (ec + ex))) in *.
  set (a2 := Z.max 0 (ec + ey - eq)) in *. set (b2 := Z.max 0 (eq - (ec + ey))) in *.
  set (u := Z.max 0 (ep + ey - (ex + eq))). set (v := Z.max 0 (ex + eq - (ep + ey))).
  assert (2 ^ a1 * 2 ^ b2 * 2 ^ u = 2 ^ b1 * 2 ^ a2 * 2 ^ v) as HP.
  { rewrite <- !Z.pow_add_r by lia. f_equal. lia. }
  pose proof (pow2_pos b1 ltac:(lia)). pose proof (pow2_pos a2 ltac:(lia)).
  apply (Z.mul_reg_r _ _ (Z.pos mc * 2 ^ b1 * 2 ^ a2)); [nia|].
  transitivity ((Z.pos mp * 2 ^ b1) * (Z.pos mc * Z.pos my * 2 ^ a2) * 2 ^ u); [ring|].
  rewrite <- Hp, Hq.
  transitivity (Z.pos mc * Z.pos mx * Z.pos mq * (2 ^ a1 * 2 ^ b2 * 2 ^ u)); [ring|].
  rewrite HP. ring.
Qed.

(** *** No NaN, and overflow only above the largest exponent *)







Lemma not_nan_isna x : Prim2SF x ≠ S754_nan → isna x = false.
Proof.
  intros H. destruct (isna x) eqn:E; [|done].
  apply is_nan_spec in E. by subst.
Qed.








End Rounding.
Import Rounding.


(** ** Normalization is anchored at 1.0 (claim C1) *)

Lemma normalized_first col x0 :
  col !! 0%nat = Some x0 →
  normalized col = Ok ((λ x, x / x0)%float <$> col).
Proof. destruct col as [|x col]; [done|]. now intros [= ->]. Qed.

(** C1, as stated, fails: a BTC snapshot whose only price reads [inf] is
    loaded as it is; the first BTC value of the aligned frame is nonzero,
    and the normalized BTC series starts with NaN, not 1.0. *)
Lemma C1_counterexample_infinite_first_value :
  pd.read_csv (Some [pd.snapshot_header; [pd.CTime 0; pd.CNum infinity]])
    = Ok [(0, infinity)]
  ∧ combine [(0, infinity)] [(0, 1%float)] = Ok frame_with_inf
  ∧ nonzero infinity = true ∧ nonzero 1 = true
  ∧ normalized (pd.BTC_USD frame_with_inf) = Ok [nan]
  ∧ [nan] !! 0%nat ≠ Some 1%float.
Proof.
  split; [reflexivity|].
  split; [reflexivity|]. split; [reflexivity|]. split; [reflexivity|].
  split; [reflexivity|].
  intros H. cbn in H. apply (neq_by_eqb nan 1%float); [reflexivity | congruence].
Qed.

(** C1 (amended): for every aligned frame whose first BTC and ETH values
    are finite (neither NaN nor infinite) and nonzero, both normalized
    single-asset series exist and their first element is exactly 1.0. *)
Theorem C1_normalized_first_is_one (data : pd.frame) (b0 e0 : float) :
  pd.BTC_USD data !! 0%nat = Some b0 →
  pd.ETH_USD data !! 0%nat = Some e0 →
  is_finite b0 = true → nonzero b0 = true →
  is_finite e0 = true → nonzero e0 = true →
  ∃ btc eth,
    normalized (pd.BTC_USD data) = Ok btc ∧
    normalized (pd.ETH_USD data) = Ok eth ∧
    btc !! 0%nat = Some 1%float ∧ eth !! 0%nat = Some 1%float.
Proof.
  intros Hb He Hbf Hbz Hef Hez.
  eexists _, _. split; [|split]; [by apply normalized_first..|].
  rewrite !list_lookup_fmap, Hb, He. cbn.
  by rewrite !div_self.
Qed.

Lemma C1_witness :
  ∃ btc eth,
    normalized [100; 110]%float = Ok btc ∧
    normalized [10; 12]%float = Ok eth ∧
    btc !! 0%nat = Some 1%float ∧ eth !! 0%nat = Some 1%float.
Proof.
  exact (C1_normalized_first_is_one
           {| pd.index := [0; 3600000];
              pd.BTC_USD := [100; 110]%float;
              pd.ETH_USD := [10; 12]%float |}
           100%float 10%float eq_refl eq_refl eq_refl eq_refl eq_refl eq_refl).
Defined.

(** ** Trend smoothing (claim C2) *)

Lemma ewm_loop_length f n vals : ∀ w o k,
  length (pd.ewm_loop f n w o k vals) = length vals.
Proof.
  induction vals as [|v vals IH]; intros w o k; [done|].
  cbn [pd.ewm_loop]. destruct (if (w =? w)%float then _ else _) as [w' o'].
  cbn. by rewrite IH.
Qed.

Lemma ewm_mean_length span vals : length (pd.ewm_mean span vals) = length vals.
Proof.
  unfold pd.ewm_mean, pd.prep_values. destruct vals as [|v vals]; [done|].
  cbn. by rewrite ewm_loop_length, length_fmap.
Qed.












(** ** Alignment leaves no gap (claim C3) *)

Section Alignment.
Implicit Types (col : list float) (s : pd.price_df) (t : Z).

Lemma elem_of_insert_sorted t u l :
  u ∈ pd.insert_sorted t l ↔ u = t ∨ u ∈ l.
Proof.
  induction l as [|v l IH]; cbn.
  - rewrite list_elem_of_singleton, elem_of_nil. tauto.
  - destruct (Z.ltb_spec t v); [by rewrite elem_of_cons|].
    destruct (Z.eqb_spec t v) as [->|_].
    + rewrite elem_of_cons. tauto.
    + rewrite !elem_of_cons, IH. tauto.
Qed.

Lemma elem_of_index_union t a b :
  t ∈ pd.index_union a b ↔ t ∈ a ∨ t ∈ b.
Proof.
  unfold pd.index_union. rewrite <- elem_of_app.
  induction (a ++ b) as [|u l IH]; cbn; [done|].
  by rewrite elem_of_insert_sorted, IH, elem_of_cons.
Qed.

Lemma ffill_from_length l0 col : length (pd.ffill_from l0 col) = length col.
Proof.
  revert l0. induction col as [|x col IH]; intros l0; cbn; [done|].
  destruct (isna x); cbn; by rewrite IH.
Qed.

Lemma bfill_length col : length (pd.bfill col) = length col.
Proof. induction col as [|x col IH]; cbn; [done|]. by rewrite IH. Qed.

Lemma reindex_length s idx : length (pd.reindex s idx) = length idx.
Proof. apply length_fmap. Qed.

(** Forward filling carries a value to the end of the column. *)
Lemma ffill_from_last col : ∀ l0,
  col ≠ [] → notna l0 ∨ Exists notna col →
  ∃ y, last (pd.ffill_from l0 col) = Some y ∧ notna y.
Proof.
  induction col as [|x col IH]; intros l0 Hne H; [done|].
  destruct col as [|x' col].
  - cbn. destruct (isna x) eqn:Hx; cbn.
    + destruct H as [H|H]; [eauto|].
      apply Exists_cons in H as [H|H]; [unfold notna in H; congruence|].
      by apply Exists_nil in H.
    + eauto.
  - cbn [pd.ffill_from]. destruct (isna x) eqn:Hx.
    + destruct (IH l0) as (y & Hy & Hn); [done| |].
      { destruct H as [H|H]; [by left|].
        apply Exists_cons in H as [H|H]; [unfold notna in H; congruence|by right]. }
      exists y. split; [|done]. rewrite <- Hy.
      cbn. by destruct (isna x').
    + destruct (IH x) as (y & Hy & Hn); [done|by left|].
      exists y. split; [|done]. rewrite <- Hy.
      cbn. by destruct (isna x').
Qed.

(** Backward filling a column that ends with a value fills every gap. *)
Lemma bfill_all_notna col y :
  last col = Some y → notna y → Forall notna (pd.bfill col).
Proof.
  intros Hl Hy. induction col as [|x col IH]; [done|].
  destruct col as [|x' col].
  - cbn in *. simplify_eq. constructor; [|done].
    unfold notna in *. by rewrite Hy.
  - specialize (IH Hl). cbn [pd.bfill]. constructor; [|done].
    destruct (isna x) eqn:Hx; [|done].
    cbn [pd.bfill] in IH. by apply Forall_cons in IH as [? _].
Qed.

Lemma fill_no_gap col :
  Exists notna col → Forall notna (pd.bfill (pd.ffill col)).
Proof.
  intros H. destruct (ffill_from_last col nan) as (y & Hy & Hn).
  - intros ->. by apply Exists_nil in H.
  - by right.
  - by eapply bfill_all_notna.
Qed.

Lemma at_label_head t p s : pd.at_label t ((t, p) :: s) = p.
Proof. cbn. by rewrite Z.eqb_refl. Qed.

(** A non-empty series of prices contributes a value to its column. *)
Lemma at_label_elem s t p :
  NoDup (s.*1) → (t, p) ∈ s → pd.at_label t s = p.
Proof.
  induction s as [|[u q] s IH]; intros Hnd Hin; [by apply elem_of_nil in Hin|].
  cbn in Hnd. apply NoDup_cons in Hnd as [Hu Hnd].
  apply elem_of_cons in Hin as [[= -> ->]|Hin].
  - apply at_label_head.
  - cbn. destruct (Z.eqb_spec t u) as [->|_]; [|by apply IH].
    destruct Hu. apply list_elem_of_fmap. by exists (u, p).
Qed.

(** A series that holds a price contributes a value to its column. *)
Lemma reindex_has_value s idx :
  NoDup (s.*1) → Exists notna (s.*2) → (∀ t, t ∈ s.*1 → t ∈ idx) →
  Exists notna (pd.reindex s idx).
Proof.
  intros Hnd (p & Hp & Hnotna)%Exists_exists Hsub.
  apply list_elem_of_fmap in Hp as ([t p'] & -> & Hin). cbn in Hnotna.
  apply Exists_exists. exists p'. split; [|done].
  apply list_elem_of_fmap. exists t. split.
  - symmetry. by apply at_label_elem.
  - apply Hsub, list_elem_of_fmap. by exists (t, p').
Qed.

Lemma Forall_notna_lookup col idx (i : nat) t :
  Forall notna col → length col = length idx → idx !! i = Some t →
  ∃ x, col !! i = Some x ∧ isna x = false.
Proof.
  intros Hall Hlen Hi.
  destruct (lookup_lt_is_Some_2 col i) as [x Hx].
  { rewrite Hlen. by eapply lookup_lt_Some. }
  exists x. split; [done|].
  by eapply (Forall_lookup_1 notna).
Qed.

End Alignment.

Lemma has_price_nonempty s : has_price s → s.*1 ≠ [].
Proof.
  unfold has_price. intros H E. apply fmap_nil_inv in E as ->.
  by apply Exists_nil in H.
Qed.

(** C3, as stated, fails.  A series can be non-empty and hold no price: the
    BTC column of the aligned frame is then NaN at every timestamp.  And
    two different non-empty series of which one has a timestamp twice have
    no aligned frame at all: [pd.concat] raises. *)
Lemma C3_counterexample_no_price_or_duplicate :
  [(0, nan)] ≠ ([] : pd.price_df)
  ∧ combine [(0, nan)] [(0, 1%float)]
    = Ok {| pd.index := [0]; pd.BTC_USD := [nan]; pd.ETH_USD := [1%float] |}
  ∧ isna nan = true
  ∧ combine [(0, 1%float); (0, 2%float)] [(1, 1%float)] = Raise ValueError.
Proof. by repeat split. Qed.

(** C3 (amended): for every pair of price series that each hold at least
    one price that is not NaN, and that have the same timestamps or no
    timestamp twice, alignment succeeds, its index is the union of the two
    indexes, and after the forward and backward fill every timestamp of
    the index has a value (not NaN) in both columns. *)
Theorem C3_aligned_frame_has_no_gap (btc_df eth_df : pd.price_df) :
  has_price btc_df → has_price eth_df → joinable btc_df eth_df →
  ∃ data,
    combine btc_df eth_df = Ok data
    ∧ (∀ t, t ∈ pd.index data ↔ t ∈ btc_df.*1 ∨ t ∈ eth_df.*1)
    ∧ ∀ (i : nat) t, pd.index data !! i = Some t →
        ∃ b e, pd.BTC_USD data !! i = Some b ∧ pd.ETH_USD data !! i = Some e
               ∧ isna b = false ∧ isna e = false.
Proof.
  intros Hbp Hep Hjoin.
  pose proof (has_price_nonempty _ Hbp) as Hbne.
  pose proof (has_price_nonempty _ Hep) as Hene.
  unfold has_price in Hbp, Hep.
  unfold combine, pd.concat.
  destruct (decide (btc_df.*1 = eth_df.*1)) as [Heq|Hne]; cbn.
  - eexists. split; [done|]. cbn. split; [rewrite Heq; tauto|].
    intros i t Hi.
    destruct (Forall_notna_lookup (pd.bfill (pd.ffill (btc_df.*2))) (btc_df.*1) i t)
      as (b & ? & ?); [by apply fill_no_gap| |done|].
    { unfold pd.ffill. by rewrite bfill_length, ffill_from_length, !length_fmap. }
    destruct (Forall_notna_lookup (pd.bfill (pd.ffill (eth_df.*2))) (btc_df.*1) i t)
      as (e & ? & ?); [by apply fill_no_gap| |done|].
    { unfold pd.ffill. rewrite bfill_length, ffill_from_length, !length_fmap.
      by rewrite <- (length_fmap fst eth_df), <- Heq, length_fmap. }
    eauto 10.
  - destruct Hjoin as [?|[Hbd Hed]]; [done|].
    rewrite decide_False, decide_False, decide_True by done. cbn.
    eexists. split; [done|]. cbn. split; [intros t; apply elem_of_index_union|].
    intros i t Hi.
    set (idx := pd.index_union (btc_df.*1) (eth_df.*1)) in *.
    destruct (Forall_notna_lookup (pd.bfill (pd.ffill (pd.reindex btc_df idx))) idx i t)
      as (b & ? & ?); [| |done|].
    { apply fill_no_gap, reindex_has_value; [done..|].
      intros u Hu. apply elem_of_index_union. by left. }
    { unfold pd.ffill. by rewrite bfill_length, ffill_from_length, reindex_length. }
    destruct (Forall_notna_lookup (pd.bfill (pd.ffill (pd.reindex eth_df idx))) idx i t)
      as (e & ? & ?); [| |done|].
    { apply fill_no_gap, reindex_has_value; [done..|].
      intros u Hu. apply elem_of_index_union. by right. }
    { unfold pd.ffill. by rewrite bfill_length, ffill_from_length, reindex_length. }
    eauto 10.
Qed.

Lemma C3_witness :
  ∃ data,
    combine btc_9am eth_10am = Ok data
    ∧ (∀ t, t ∈ pd.index data ↔ t ∈ btc_9am.*1 ∨ t ∈ eth_10am.*1)
    ∧ ∀ (i : nat) t, pd.index data !! i = Some t →
        ∃ b e, pd.BTC_USD data !! i = Some b ∧ pd.ETH_USD data !! i = Some e
               ∧ isna b = false ∧ isna e = false.
Proof.
  apply (C3_aligned_frame_has_no_gap btc_9am eth_10am).
  - by apply Exists_cons_hd.
  - by apply Exists_cons_hd.
  - right. split; apply (bool_decide_unpack _); vm_compute; exact I.
Defined.

(** ** The leading-asset signal (claim C4) *)

(** C4: the banner is "ETH recovery" exactly when [eth_last > btc_last];
    otherwise, and in particular on a tie, it is "BTC leading". *)
Theorem C4_leading_signal_strict (eth_last btc_last ratio : float) :
  (leading_signal eth_last btc_last ratio = EthRecovery ratio
     ↔ (btc_last <? eth_last)%float = true)
  ∧ (leading_signal eth_last btc_last ratio = BtcLeading ratio
     ↔ (btc_last <? eth_last)%float = false)
  ∧ leading_signal btc_last btc_last ratio = BtcLeading ratio
  ∧ ((eth_last =? btc_last)%float = true →
     leading_signal eth_last btc_last ratio = BtcLeading ratio).
Proof.
  unfold leading_signal. repeat split.
  - by destruct (btc_last <? eth_last)%float.
  - by intros ->.
  - by destruct (btc_last <? eth_last)%float.
  - by intros ->.
  - by rewrite ltb_irrefl.
  - intros H. by rewrite (ltb_of_eqb _ _ H).
Qed.


(** The two cases of the specification: BTC = 1.10 and ETH = 1.15, and the
    tie at 1.10. *)
#[local] Set Warnings "-inexact-float".

Example leading_signal_eth_ahead :
  leading_signal 1.15 1.10 (1.15 / 1.10) = EthRecovery (1.15 / 1.10)%float.
Proof. reflexivity. Qed.

Example leading_signal_tie :
  leading_signal 1.10 1.10 (1.10 / 1.10) = BtcLeading 1%float.
Proof. reflexivity. Qed.

#[local] Set Warnings "+inexact-float".

(** ** Normalization and scaling of the raw series (claim C9) *)

(** C9, as stated, fails: multiplying the BTC series [100, 150] by 1.1
    changes its normalized series from [1, 1.5] to [1, 1.4999999999999998],
    because the product [1.1 * 150] is rounded. *)
Lemma C9_counterexample_rounding :
  let btc_df := [(0, 100%float); (3600000, 150%float)] in
  let eth_df := [(0, 10%float); (3600000, 12%float)] in
  (0 <? c_1_1)%float = true
  ∧ portfolio_btc btc_df eth_df = Ok [1; 1.5]%float
  ∧ portfolio_btc (scaled c_1_1 btc_df) eth_df = Ok [1; 0x1.7ffffffffffffp+0]%float
  ∧ portfolio_btc (scaled c_1_1 btc_df) eth_df ≠ portfolio_btc btc_df eth_df
  ∧ exact_product c_1_1 150 = false.
Proof.
  cbv zeta. split; [reflexivity|]. split; [reflexivity|]. split; [reflexivity|].
  split; [|reflexivity].
  intros H. vm_compute in H.
  apply (neq_by_eqb 0x1.7ffffffffffffp+0 1.5); [reflexivity | congruence].
Qed.

Section Scaling.
Variable c : float.
Hypothesis c_positive : (0 <? c)%float = true.
Hypothesis c_finite : is_finite c = true.

Local Abbreviation mulc := (λ x : float, (c * x)%float).
Local Abbreviation okc := (λ x : float, exact_product c x = true).

Lemma scaled_fst s : (scaled c s).*1 = s.*1.
Proof.
  unfold scaled. rewrite <- list_fmap_compose.
  apply list_fmap_ext. by intros i [t p] _.
Qed.

Lemma scaled_snd s : (scaled c s).*2 = mulc <$> s.*2.
Proof.
  unfold scaled. rewrite <- !list_fmap_compose.
  apply list_fmap_ext. by intros i [t p] _.
Qed.

Lemma at_label_scaled t s : pd.at_label t (scaled c s) = (c * pd.at_label t s)%float.
Proof.
  induction s as [|[u p] s IH]; cbn.
  - by rewrite mul_nan_r.
  - by destruct (t =? u).
Qed.

Lemma reindex_scaled s idx : pd.reindex (scaled c s) idx = mulc <$> pd.reindex s idx.
Proof.
  unfold pd.reindex. rewrite <- list_fmap_compose.
  apply list_fmap_ext. intros i t _. apply at_label_scaled.
Qed.

Lemma exact_product_nan : exact_product c nan = true.
Proof. unfold exact_product. by destruct (Prim2SF c). Qed.

Lemma at_label_scalable t s : scaled_exactly c s → okc (pd.at_label t s).
Proof.
  unfold scaled_exactly. induction s as [|[u p] s IH]; cbn; intros H.
  - apply exact_product_nan.
  - apply Forall_cons in H as [Hp H]. destruct (t =? u); auto.
Qed.

(** Scaling keeps the gaps where they are. *)
Lemma isna_mulc x : okc x → isna (c * x) = isna x.
Proof.
  intros Hx. destruct (positive_finite_inv c c_positive c_finite) as (mc & ec & Ec).
  destruct (Prim2SF x) as [s|s| |s m e] eqn:Ex.
  - rewrite !not_nan_isna; [done|by rewrite Ex|].
    by rewrite mul_spec, Ec, Ex.
  - rewrite !not_nan_isna; [done|by rewrite Ex|].
    by rewrite mul_spec, Ec, Ex.
  - assert (x = nan) as -> by (by apply Prim2SF_inj). by rewrite mul_nan_r.
  - destruct (exact_product_inv c x mc ec s m e Ec Ex Hx) as (mp & ep & Ep & _).
    by rewrite (isna_false_finite _ _ _ _ Ep), (isna_false_finite _ _ _ _ Ex).
Qed.

Lemma ffill_from_scaled col : ∀ l0,
  Forall okc col →
  pd.ffill_from (c * l0) (mulc <$> col) = mulc <$> pd.ffill_from l0 col.
Proof.
  induction col as [|x col IH]; intros l0 H; [done|].
  apply Forall_cons in H as [Hx H]. cbn.
  rewrite (isna_mulc x Hx). destruct (isna x); cbn; by rewrite IH.
Qed.

Lemma ffill_scaled col :
  Forall okc col → pd.ffill (mulc <$> col) = mulc <$> pd.ffill col.
Proof.
  intros H. unfold pd.ffill.
  rewrite <- (mul_nan_r c) at 1. by apply ffill_from_scaled.
Qed.

Lemma ffill_from_scalable col : ∀ l0,
  okc l0 → Forall okc col → Forall okc (pd.ffill_from l0 col).
Proof.
  induction col as [|x col IH]; intros l0 Hl H; [done|].
  apply Forall_cons in H as [Hx H]. cbn.
  destruct (isna x); constructor; auto.
Qed.

Lemma hd_scaled col : hd nan (mulc <$> col) = (c * hd nan col)%float.
Proof. destruct col; cbn; [by rewrite mul_nan_r | done]. Qed.

Lemma bfill_scaled col :
  Forall okc col → pd.bfill (mulc <$> col) = mulc <$> pd.bfill col.
Proof.
  induction col as [|x col IH]; intros H; [done|].
  apply Forall_cons in H as [Hx H]. cbn.
  rewrite (isna_mulc x Hx), (IH H), hd_scaled.
  by destruct (isna x).
Qed.

Lemma bfill_scalable col : Forall okc col → Forall okc (pd.bfill col).
Proof.
  induction col as [|x col IH]; intros H; [done|].
  apply Forall_cons in H as [Hx H]. specialize (IH H). cbn.
  constructor; [|done].
  destruct (isna x); [|done].
  destruct (pd.bfill col); cbn; [apply exact_product_nan|].
  by apply Forall_cons in IH as [? _].
Qed.

Lemma normalized_scaled col :
  Forall okc col → normalized (mulc <$> col) = normalized col.
Proof.
  intros H. destruct col as [|x0 col]; [done|].
  rewrite (normalized_first (x0 :: col) x0) by done.
  rewrite (normalized_first (mulc <$> x0 :: col) (c * x0)%float) by done.
  f_equal. rewrite <- list_fmap_compose.
  apply Forall_fmap_ext_1.
  pose proof H as [Hx0 _]%Forall_cons.
  eapply Forall_impl; [exact H|]. intros x Hx. cbn.
  by apply div_scaled.
Qed.

(** The filled column of a scaled column. *)
Lemma filled_scaled col :
  Forall okc col →
  pd.bfill (pd.ffill (mulc <$> col)) = mulc <$> pd.bfill (pd.ffill col)
  ∧ Forall okc (pd.bfill (pd.ffill col)).
Proof.
  intros H.
  assert (Forall okc (pd.ffill col)) as Hf.
  { apply ffill_from_scalable; [apply exact_product_nan | done]. }
  split.
  - by rewrite ffill_scaled, bfill_scaled.
  - by apply bfill_scalable.
Qed.

Lemma reindex_scalable (s : pd.price_df) idx :
  scaled_exactly c s → Forall okc (pd.reindex s idx).
Proof.
  intros H. apply Forall_fmap, Forall_forall. intros t _.
  by apply at_label_scalable.
Qed.

(** The normalized filled column of a scaled column. *)
Lemma column_scaled col :
  Forall okc col →
  normalized (pd.bfill (pd.ffill (mulc <$> col)))
  = normalized (pd.bfill (pd.ffill col)).
Proof.
  intros H. destruct (filled_scaled col H) as [-> Hs].
  by apply normalized_scaled.
Qed.

Lemma portfolio_btc_scaled btc_df eth_df :
  scaled_exactly c btc_df →
  portfolio_btc (scaled c btc_df) eth_df = portfolio_btc btc_df eth_df.
Proof.
  intros H. unfold portfolio_btc, combine, pd.concat.
  rewrite scaled_fst, scaled_snd.
  repeat (destruct (decide _); cbn -[pd.ffill]); try done;
    rewrite ?reindex_scaled; apply column_scaled;
    by (apply H || apply reindex_scalable).
Qed.

Lemma portfolio_eth_scaled btc_df eth_df :
  scaled_exactly c eth_df →
  portfolio_eth btc_df (scaled c eth_df) = portfolio_eth btc_df eth_df.
Proof.
  intros H. unfold portfolio_eth, combine, pd.concat.
  rewrite scaled_fst, scaled_snd.
  repeat (destruct (decide _); cbn -[pd.ffill]); try done;
    rewrite ?reindex_scaled; apply column_scaled;
    by (apply H || apply reindex_scalable).
Qed.

End Scaling.

(** C9 (amended): for every pair of input series and every positive finite
    constant [c], if every product of [c] with a price of an asset is
    exact (the binary64 product is the real product: no rounding, overflow
    or underflow), then scaling that asset's raw series by [c] leaves its
    normalized series unchanged. *)
Theorem C9_normalization_invariant_under_exact_scaling
    (c : float) (btc_df eth_df : pd.price_df) :
  (0 <? c)%float = true → is_finite c = true →
  (scaled_exactly c btc_df →
   portfolio_btc (scaled c btc_df) eth_df = portfolio_btc btc_df eth_df)
  ∧ (scaled_exactly c eth_df →
     portfolio_eth btc_df (scaled c eth_df) = portfolio_eth btc_df eth_df).
Proof.
  intros Hpos Hfin.
  split; [by apply portfolio_btc_scaled | by apply portfolio_eth_scaled].
Qed.

Lemma C9_witness :
  portfolio_btc (scaled 3 [(0, 100%float); (3600000, 150%float)]) eth_10am
  = portfolio_btc [(0, 100%float); (3600000, 150%float)] eth_10am.
Proof.
  apply (proj1 (C9_normalization_invariant_under_exact_scaling
                  3 [(0, 100%float); (3600000, 150%float)] eth_10am
                  eq_refl eq_refl)).
  repeat constructor.
Defined.

(** ** File names *)

Lemma string_length_app s t :
  String.length (s +:+ t) = (String.length s + String.length t)%nat.
Proof.
  induction s as [|c s IH]; [done|].
  change (S (String.length (s +:+ t)) = S (String.length s + String.length t)).
  by rewrite IH.
Qed.

Lemma string_app_inv_tail t : ∀ s1 s2, s1 +:+ t = s2 +:+ t → s1 = s2.
Proof.
  induction s1 as [|c s1 IH]; intros [|c' s2] H.
  - done.
  - apply (f_equal String.length) in H.
    rewrite !string_length_app in H. cbn in H. lia.
  - apply (f_equal String.length) in H.
    rewrite !string_length_app in H. cbn in H. lia.
  - injection H as -> H. f_equal. by apply IH.
Qed.

(** The daily log is not one of the snapshot files. *)
Lemma log_not_snapshot e symbol date : log_filename e ≠ snapshot_file symbol date.
Proof.
  cbv [log_filename log_file snapshot_file raw_data_dir String.append]. discriminate.
Qed.

Lemma snapshot_file_btc_eth d1 d2 :
  snapshot_file "BTCUSDT" d1 ≠ snapshot_file "ETHUSDT" d2.
Proof. cbv [snapshot_file raw_data_dir String.append]. discriminate. Qed.

Lemma snapshot_file_btc_inj d1 d2 :
  snapshot_file "BTCUSDT" d1 = snapshot_file "BTCUSDT" d2 → d1 = d2.
Proof.
  cbv [snapshot_file raw_data_dir String.append]. intros H.
  injection H as H. by eapply string_app_inv_tail.
Qed.

Lemma snapshot_file_eth_inj d1 d2 :
  snapshot_file "ETHUSDT" d1 = snapshot_file "ETHUSDT" d2 → d1 = d2.
Proof.
  cbv [snapshot_file raw_data_dir String.append]. intros H.
  injection H as H. by eapply string_app_inv_tail.
Qed.

(** The snapshot of an asset for one date is a different file from the
    snapshot of either asset for another date. *)
Lemma snapshot_file_other_date symbol symbol' d d' :
  symbol = "BTCUSDT" ∨ symbol = "ETHUSDT" →
  symbol' = "BTCUSDT" ∨ symbol' = "ETHUSDT" →
  d ≠ d' → snapshot_file symbol d ≠ snapshot_file symbol' d'.
Proof.
  intros [->| ->] [->| ->] Hd H.
  - by apply snapshot_file_btc_inj in H.
  - by apply snapshot_file_btc_eth in H.
  - symmetry in H. by apply snapshot_file_btc_eth in H.
  - by apply snapshot_file_eth_inj in H.
Qed.

(** ** What each part of the script does to the world *)

Lemma get_binance_data_fails e symbol days w :
  fetch_fails (binance e symbol) = true →
  ∃ ex, get_binance_data e symbol days w
        = (Raised ex, {| files := files w; trace := trace w ++ [HttpGet symbol] |}).
Proof.
  unfold get_binance_data, fetch_fails, raise_for_status, mbind, M_bind, emit, lift.
  destruct (binance e symbol) as [|status body]; cbn; [by eauto|].
  destruct ((400 <=? status) && (status <? 600)), body as [df|]; cbn;
    try discriminate; eauto.
Qed.

Lemma get_binance_data_ok e symbol days w :
  fetch_fails (binance e symbol) = false →
  ∃ status df,
    binance e symbol = Response status (Some df)
    ∧ get_binance_data e symbol days w
      = (Done df, {| files := files w; trace := trace w ++ [HttpGet symbol] |}).
Proof.
  unfold get_binance_data, fetch_fails, raise_for_status, mbind, M_bind, emit, lift.
  destruct (binance e symbol) as [|status body]; cbn; [by eauto|].
  destruct ((400 <=? status) && (status <? 600)), body as [df|]; cbn;
    try discriminate; eauto.
Qed.

(** In live mode a failed fetch ends the run at [st.stop()], right after
    the error message, with the files as they were. *)
Lemma load_data_live_fails e w :
  freeze_mode e = false →
  fetch_fails (binance e "BTCUSDT") || fetch_fails (binance e "ETHUSDT") = true →
  ∃ ex requests,
    Forall is_http_get requests
    ∧ load_data e w
      = (Stopped, {| files := files w;
                     trace := trace w ++ SidebarSuccess :: requests ++ [StError ex] |}).
Proof.
  intros Hlive Hfail. unfold load_data. rewrite Hlive.
  unfold mbind, M_bind, try_except, emit at 1. cbn.
  destruct (fetch_fails (binance e "BTCUSDT")) eqn:Hb.
  - destruct (get_binance_data_fails e "BTCUSDT" days_to_track
                {| files := files w; trace := trace w ++ [SidebarSuccess] |} Hb)
      as [ex ->].
    exists ex, [HttpGet "BTCUSDT"]. split; [repeat constructor; by eexists|].
    unfold emit, st_stop. cbn. by rewrite <- !app_assoc.
  - destruct (get_binance_data_ok e "BTCUSDT" days_to_track
                {| files := files w; trace := trace w ++ [SidebarSuccess] |} Hb)
      as (st & df & _ & ->).
    cbn in Hfail. cbn -[get_binance_data].
    destruct (get_binance_data_fails e "ETHUSDT" days_to_track
                {| files := files w;
                   trace := (trace w ++ [SidebarSuccess]) ++ [HttpGet "BTCUSDT"] |} Hfail)
      as [ex ->].
    exists ex, [HttpGet "BTCUSDT"; HttpGet "ETHUSDT"].
    split; [repeat constructor; by eexists|].
    unfold emit, st_stop. cbn. by rewrite <- !app_assoc.
Qed.

(** In live mode two successful fetches are saved as today's snapshots,
    whatever was there before. *)
Lemma load_data_live_ok e w :
  freeze_mode e = false →
  fetch_fails (binance e "BTCUSDT") = false →
  fetch_fails (binance e "ETHUSDT") = false →
  ∃ sb btc_df se eth_df,
    binance e "BTCUSDT" = Response sb (Some btc_df)
    ∧ binance e "ETHUSDT" = Response se (Some eth_df)
    ∧ load_data e w
      = (Done (btc_df, eth_df),
         {| files :=
              <[snapshot_file "ETHUSDT" (snapshot_today e) := pd.price_df_to_csv eth_df]>
                (<[snapshot_file "BTCUSDT" (snapshot_today e) := pd.price_df_to_csv btc_df]>
                   (files w));
            trace := trace w ++ [SidebarSuccess; HttpGet "BTCUSDT"; HttpGet "ETHUSDT"] |}).
Proof.
  intros Hlive Hb He. unfold load_data. rewrite Hlive.
  unfold mbind, M_bind, try_except, emit at 1. cbn.
  destruct (get_binance_data_ok e "BTCUSDT" days_to_track
              {| files := files w; trace := trace w ++ [SidebarSuccess] |} Hb)
    as (sb & btc_df & Eb & ->).
  cbn -[get_binance_data].
  destruct (get_binance_data_ok e "ETHUSDT" days_to_track
              {| files := files w;
                 trace := (trace w ++ [SidebarSuccess]) ++ [HttpGet "BTCUSDT"] |} He)
    as (se & eth_df & Ee & ->).
  exists sb, btc_df, se, eth_df. split; [done|]. split; [done|].
  unfold write_file, mret, M_ret. cbn. by rewrite <- !app_assoc.
Qed.

(** In freeze mode the data comes from the two stored files; nothing is
    written and nothing is requested. *)
Lemma load_data_frozen e w :
  freeze_mode e = true →
  load_data e w
  = ((btc_df ← lift (pd.read_csv (files w !! snapshot_file "BTCUSDT" (snapshot_choice e)));
      eth_df ← lift (pd.read_csv (files w !! snapshot_file "ETHUSDT" (snapshot_choice e)));
      mret (btc_df, eth_df))
       {| files := files w; trace := trace w ++ [SidebarInfo (snapshot_choice e)] |}).
Proof.
  intros Hfrozen. unfold load_data. rewrite Hfrozen.
  unfold mbind, M_bind, emit, read_file, lift. cbn.
  by destruct (pd.read_csv _); [destruct (pd.read_csv _)|].
Qed.

Lemma load_data_frozen_world e w :
  freeze_mode e = true →
  (load_data e w).2
  = {| files := files w; trace := trace w ++ [SidebarInfo (snapshot_choice e)] |}.
Proof.
  intros Hfrozen. rewrite load_data_frozen by done.
  unfold mbind, M_bind, lift. cbn.
  by destruct (pd.read_csv _); [destruct (pd.read_csv _)|].
Qed.

Lemma not_http_leading_signal x y r : not_http (leading_signal x y r).
Proof. unfold leading_signal. by destruct (_ <? _)%float. Qed.

Lemma is_log_entry_intro ts a b c d e f g h i :
  is_log_entry (log_entry ts a b c d e f g h i).
Proof. by exists ts, a, b, c, d, e, f, g, h, i. Qed.

(** The two ways the pipeline can end early: before anything is shown, or
    after some charts and metrics; in both the files are as they were. *)
Ltac raised_at_once := exists []; by rewrite app_nil_r.
Ltac raised_after_events :=
  eexists; rewrite <- !app_assoc; split; [|by split]; by repeat constructor.

(** After the data is loaded nothing is requested from the network, and
    the only file touched is the daily log: one row is appended when the
    run reaches the logging step, and nothing changes otherwise. *)
Lemma pipeline_spec e b d w :
  ∃ evs, Forall not_http evs
    ∧ trace (pipeline e b d w).2 = trace w ++ evs
    ∧ match (pipeline e b d w).1 with
      | Done _ =>
          ∃ entry, is_log_entry entry ∧
            files (pipeline e b d w).2
            = <[log_filename e :=
                  default [log_header] (files w !! log_filename e) ++ [entry]]> (files w)
      | _ => files (pipeline e b d w).2 = files w
      end.
Proof.
  pose proof not_http_leading_signal as Hsig.
  pose proof is_log_entry_intro as Hentry.
  unfold pipeline, mbind, M_bind, lift, emit.
  destruct (combine b d) as [data|]; [|raised_at_once].
  destruct (normalized (pd.BTC_USD data)) as [btc|]; [|raised_at_once].
  destruct (normalized (pd.ETH_USD data)) as [eth|]; [|raised_at_once].
  cbn.
  destruct (pd.iloc_last eth) as [eth_last|]; [|raised_after_events].
  destruct (pd.iloc_last btc) as [btc_last|]; [|raised_after_events].
  cbn.
  destruct (pd.iloc_last (pd.BTC_USD data)) as [bp|]; [|raised_after_events].
  destruct (pd.iloc_last (pd.ETH_USD data)) as [ep|]; [|raised_after_events].
  destruct (pd.iloc_last (mix_50_50 btc eth)) as [ml|]; [|raised_after_events].
  unfold write_log, append_file, write_file, read_file, mbind, M_bind. cbn.
  destruct (files w !! log_filename e) as [old|] eqn:Hold; cbn; rewrite ?Hold.
  - eexists; rewrite <- !app_assoc. split; [|split; [done|]].
    + by repeat constructor.
    + eexists. by split; [apply Hentry|].
  - eexists; rewrite <- !app_assoc. split; [|split; [done|]].
    + by repeat constructor.
    + eexists. by split; [apply Hentry|].
Qed.

Lemma load_data_files e w :
  (freeze_mode e = true → files (load_data e w).2 = files w)
  ∧ (∀ p, p ≠ snapshot_file "BTCUSDT" (snapshot_today e) →
          p ≠ snapshot_file "ETHUSDT" (snapshot_today e) →
          files (load_data e w).2 !! p = files w !! p).
Proof.
  destruct (freeze_mode e) eqn:Hmode.
  - rewrite load_data_frozen_world by done. by split.
  - split; [done|]. intros p Hb He.
    destruct (fetch_fails (binance e "BTCUSDT") || fetch_fails (binance e "ETHUSDT"))
      eqn:Hfail.
    + destruct (load_data_live_fails e w Hmode Hfail) as (ex & rq & _ & ->). done.
    + apply orb_false_iff in Hfail as [Hfb Hfe].
      destruct (load_data_live_ok e w Hmode Hfb Hfe)
        as (sb & btc_df & se & eth_df & _ & _ & ->).
      cbn. by rewrite !lookup_insert_ne.
Qed.

(** The files a run leaves: those it loaded with, plus one more row in the
    daily log if and only if the run reached its last line. *)
Lemma run_files_spec e fs :
  ∃ fs1 : gmap string pd.csv,
    (freeze_mode e = true → fs1 = fs)
    ∧ (∀ p, p ≠ snapshot_file "BTCUSDT" (snapshot_today e) →
            p ≠ snapshot_file "ETHUSDT" (snapshot_today e) →
            fs1 !! p = fs !! p)
    ∧ match (run e fs).1 with
      | Done _ =>
          ∃ entry, is_log_entry entry ∧
            files (run e fs).2
            = <[log_filename e :=
                  default [log_header] (fs !! log_filename e) ++ [entry]]> fs1
      | _ => files (run e fs).2 = fs1
      end.
Proof.
  destruct (load_data_files e {| files := fs; trace := [] |}) as [Hfrozen Hother].
  exists (files (load_data e {| files := fs; trace := [] |}).2).
  split; [done|]. split; [done|].
  unfold run, script, mbind, M_bind.
  destruct (load_data e _) as [[dfs|ex|] w1]; cbn in *; [|done..].
  destruct (pipeline_spec e dfs.1 dfs.2 w1) as (evs & _ & _ & Hfiles).
  destruct (pipeline e dfs.1 dfs.2 w1) as [[[]|ex|] w2]; cbn in *; [|done..].
  destruct Hfiles as (entry & Hentry & ->).
  exists entry. split; [done|].
  rewrite (Hother (log_filename e)) by apply log_not_snapshot. done.
Qed.

(** The files a run does not touch. *)
Lemma run_files_other e fs p :
  p ≠ log_filename e →
  freeze_mode e = true
  ∨ (p ≠ snapshot_file "BTCUSDT" (snapshot_today e)
     ∧ p ≠ snapshot_file "ETHUSDT" (snapshot_today e)) →
  files (run e fs).2 !! p = fs !! p.
Proof.
  intros Hlog Hp.
  destruct (run_files_spec e fs) as (fs1 & Hfrozen & Hother & Hrun).
  assert (fs1 !! p = fs !! p) as <-.
  { destruct Hp as [Hmode|[Hb He]]; [by rewrite Hfrozen | by apply Hother]. }
  destruct ((run e fs).1) as [[]|ex|].
  - destruct Hrun as (entry & _ & ->). by rewrite lookup_insert_ne.
  - by rewrite Hrun.
  - by rewrite Hrun.
Qed.

(** A run that reaches its last line has appended one row to the log. *)
Lemma run_done_log e fs :
  (run e fs).1 = Done tt →
  ∃ entry, is_log_entry entry ∧
    files (run e fs).2 !! log_filename e
    = Some (default [log_header] (fs !! log_filename e) ++ [entry]).
Proof.
  intros Hdone.
  destruct (run_files_spec e fs) as (fs1 & _ & _ & Hrun).
  rewrite Hdone in Hrun. destruct Hrun as (entry & Hentry & ->).
  exists entry. split; [done|]. by rewrite lookup_insert_eq.
Qed.

(** A run that fails to fetch stops right after the error message. *)
Lemma run_live_fetch_fails e fs :
  freeze_mode e = false →
  fetch_fails (binance e "BTCUSDT") || fetch_fails (binance e "ETHUSDT") = true →
  ∃ ex requests,
    Forall is_http_get requests
    ∧ run e fs
      = (Stopped, {| files := fs;
                     trace := SidebarSuccess :: requests ++ [StError ex] |}).
Proof.
  intros Hmode Hfail. unfold run, script, mbind, M_bind.
  destruct (load_data_live_fails e {| files := fs; trace := [] |} Hmode Hfail)
    as (ex & rq & Hrq & ->).
  by exists ex, rq.
Qed.

(** In freeze mode a run requests nothing from the network. *)
Lemma run_frozen_trace e fs :
  freeze_mode e = true → Forall not_http (trace (run e fs).2).
Proof.
  intros Hmode. unfold run, script, mbind, M_bind.
  pose proof (load_data_frozen_world e {| files := fs; trace := [] |} Hmode) as Hw.
  destruct (load_data e _) as [[dfs|ex|] w1]; cbn in Hw; subst w1; cbn;
    [|by repeat constructor..].
  destruct (pipeline_spec e dfs.1 dfs.2
              {| files := fs; trace := [SidebarInfo (snapshot_choice e)] |})
    as (evs & Hevs & -> & _).
  cbn. by constructor.
Qed.

(** After the data is loaded, the run depends on the inputs only through
    the two readings of the clock used for the log. *)
Lemma pipeline_env e e' b d :
  log_today e' = log_today e → log_now e' = log_now e →
  pipeline e' b d = pipeline e b d.
Proof. unfold pipeline, log_filename. by intros -> ->. Qed.

Lemma run_frozen e fs :
  freeze_mode e = true →
  run e fs
  = (btc_df ← lift (pd.read_csv (fs !! snapshot_file "BTCUSDT" (snapshot_choice e)));
     eth_df ← lift (pd.read_csv (fs !! snapshot_file "ETHUSDT" (snapshot_choice e)));
     pipeline e btc_df eth_df)
      {| files := fs; trace := [SidebarInfo (snapshot_choice e)] |}.
Proof.
  intros Hmode. unfold run, script. unfold mbind at 1, M_bind at 1.
  rewrite load_data_frozen by done.
  unfold mbind, M_bind, lift. cbn.
  by destruct (pd.read_csv _); [destruct (pd.read_csv _)|].
Qed.

Lemma log_entry_not_header ts a b c d e f g h i :
  log_entry ts a b c d e f g h i ≠ log_header.
Proof. discriminate. Qed.

(** The log after a session of completed runs on the day [d]. *)
Lemma session_log es : ∀ fs d,
  Forall (λ e, log_today e = d) es → all_done es fs →
  ∃ rows,
    length rows = length es
    ∧ Forall (λ row, is_log_entry row ∧ row ≠ log_header) rows
    ∧ session es fs !! log_file d
      = match es with
        | [] => fs !! log_file d
        | _ => Some (default [log_header] (fs !! log_file d) ++ rows)
        end.
Proof.
  induction es as [|e es IH]; intros fs d Hday Hdone.
  - by exists [].
  - apply Forall_cons in Hday as [He Hday]. destruct Hdone as [Hrun Hdone].
    destruct (run_done_log e fs Hrun) as (entry & Hentry & Hlog).
    unfold log_filename in Hlog. rewrite He in Hlog.
    destruct (IH _ d Hday Hdone) as (rows & Hlen & Hrows & Hsession).
    exists (entry :: rows). split; [cbn; by rewrite Hlen|]. split.
    + constructor; [|done]. split; [done|].
      destruct Hentry as (? & ? & ? & ? & ? & ? & ? & ? & ? & ? & ->).
      apply log_entry_not_header.
    + change (session (e :: es) fs) with (session es (files (run e fs).2)).
      rewrite Hsession, Hlog. destruct es as [|e' es].
      * by destruct rows.
      * cbn. by rewrite <- app_assoc.
Qed.

(** ** When a run reaches its last line *)

Lemma iloc_last_ok (col : list float) : col ≠ [] → ∃ x, pd.iloc_last col = Ok x.
Proof.
  intros [x Hx]%last_is_Some. exists x. unfold pd.iloc_last. by rewrite Hx.
Qed.

Lemma combine_lengths b d data :
  combine b d = Ok data →
  length (pd.BTC_USD data) = length (pd.index data)
  ∧ length (pd.ETH_USD data) = length (pd.index data).
Proof.
  unfold combine, pd.concat, pd.ffill.
  destruct (decide (b.*1 = d.*1)) as [Heq|_]; cbn.
  - intros [= <-]. cbn.
    rewrite !bfill_length, !ffill_from_length, !length_fmap.
    split; [done|]. by rewrite <- (length_fmap fst d), <- Heq, length_fmap.
  - repeat (destruct (decide _); cbn); try done; intros [= <-]; cbn;
      by rewrite !bfill_length, !ffill_from_length, ?reindex_length, ?length_fmap.
Qed.

Lemma combine_index_nonempty b d data :
  b ≠ [] → combine b d = Ok data → pd.index data ≠ [].
Proof.
  intros Hb. unfold combine, pd.concat.
  destruct (decide (b.*1 = d.*1)) as [Heq|_]; cbn.
  - intros [= <-]. cbn. by destruct b.
  - repeat (destruct (decide _); cbn); try done; intros [= <-]; cbn;
      try by destruct b.
    destruct b as [|[t p] b]; [done|]. intros Hnil.
    assert (t ∈ pd.index_union (((t, p) :: b).*1) (d.*1)) as Hin.
    { apply elem_of_index_union. left. cbn. left. }
    rewrite Hnil in Hin. by apply elem_of_nil in Hin.
Qed.

(** The next [iloc[-1]] of the goal is on a non-empty column. *)
Ltac next_iloc_last :=
  match goal with
  | |- context [pd.iloc_last ?col] =>
      let H := fresh in
      destruct (iloc_last_ok col) as [? H]; [by cbn | rewrite H; clear H]
  end.

(** Once the data is combined into a frame with at least one row, nothing
    in the rest of the script raises. *)
Lemma pipeline_completes e b d w data :
  combine b d = Ok data → pd.index data ≠ [] →
  (pipeline e b d w).1 = Done tt.
Proof.
  intros Hdata Hrows.
  destruct (combine_lengths b d data Hdata) as [Hlb Hle].
  destruct data as [idx [|x xs] [|y ys]]; cbn in *;
    try (destruct idx; [done | discriminate]).
  unfold pipeline, mbind, M_bind, lift, emit. rewrite Hdata. cbn.
  do 5 (next_iloc_last; cbn).
  unfold write_log, append_file, write_file, read_file, mbind, M_bind. cbn.
  by destruct (files w !! log_filename e).
Qed.

(** A live page load runs to its last line whenever both fetches succeed
    with one row per open time and the BTC series is not empty. *)
Lemma run_live_completes e fs sb btc_df se eth_df :
  freeze_mode e = false →
  binance e "BTCUSDT" = Response sb (Some btc_df) →
  binance e "ETHUSDT" = Response se (Some eth_df) →
  fetch_fails (binance e "BTCUSDT") = false →
  fetch_fails (binance e "ETHUSDT") = false →
  btc_df ≠ [] → NoDup (btc_df.*1) → NoDup (eth_df.*1) →
  (run e fs).1 = Done tt.
Proof.
  intros Hmode Eb Ee Hb He Hne Hnb Hnd.
  unfold run, script. unfold mbind at 1, M_bind at 1.
  destruct (load_data_live_ok e {| files := fs; trace := [] |} Hmode Hb He)
    as (sb' & b & se' & d & Eb' & Ee' & ->).
  assert (b = btc_df) as -> by congruence.
  assert (d = eth_df) as -> by congruence.
  cbn [fst snd].
  destruct (combine btc_df eth_df) as [data|ex] eqn:Hdata.
  - eapply pipeline_completes; [done|]. by eapply combine_index_nonempty.
  - exfalso. revert Hdata. unfold combine, pd.concat.
    do 3 (destruct (decide _); [done|]). by rewrite decide_True.
Qed.

(** ** Snapshots (claim C5) *)

(** C5, as stated, fails: two live page loads on 2024-01-01, one hour
    apart.  The second replaces the BTC snapshot the first one wrote. *)
Lemma C5_counterexample_same_day_overwrite :
  let first := live_on_jan_1 (Response 200 (Some btc_9am)) (Response 200 (Some eth_9am)) in
  let second := live_on_jan_1 (Response 200 (Some btc_10am)) (Response 200 (Some eth_10am)) in
  let fs1 := files (run first ∅).2 in
  let fs2 := files (run second fs1).2 in
  let snapshot := snapshot_file "BTCUSDT" "2024-01-01" in
  snapshot_today first = snapshot_today second
  ∧ fs1 !! snapshot = Some (pd.price_df_to_csv btc_9am)
  ∧ fs2 !! snapshot = Some (pd.price_df_to_csv btc_10am)
  ∧ fs2 !! snapshot ≠ fs1 !! snapshot.
Proof.
  cbv zeta. split; [reflexivity|].
  assert (files (run (live_on_jan_1 (Response 200 (Some btc_9am))
                        (Response 200 (Some eth_9am))) ∅).2
            !! snapshot_file "BTCUSDT" "2024-01-01"
          = Some (pd.price_df_to_csv btc_9am)) as H1 by (vm_compute; reflexivity).
  assert (files (run (live_on_jan_1 (Response 200 (Some btc_10am))
                        (Response 200 (Some eth_10am)))
                   (files (run (live_on_jan_1 (Response 200 (Some btc_9am))
                                  (Response 200 (Some eth_9am))) ∅).2)).2
            !! snapshot_file "BTCUSDT" "2024-01-01"
          = Some (pd.price_df_to_csv btc_10am)) as H2 by (vm_compute; reflexivity).
  split; [exact H1|]. split; [exact H2|].
  rewrite H1, H2. discriminate.
Qed.

(** C5 (amended): the snapshot of an asset for a date is left as it is by
    every freeze-mode run and by every run on another calendar date; a live
    run whose two fetches succeed replaces today's snapshots of both assets
    by what it fetched (the latest fetch of the day wins). *)
Theorem C5_snapshot_changed_only_by_live_run_of_its_day (e : env) (fs : gmap string pd.csv) :
  (∀ symbol date,
     symbol = "BTCUSDT" ∨ symbol = "ETHUSDT" →
     freeze_mode e = true ∨ snapshot_today e ≠ date →
     files (run e fs).2 !! snapshot_file symbol date = fs !! snapshot_file symbol date)
  ∧ (freeze_mode e = false →
     fetch_fails (binance e "BTCUSDT") = false →
     fetch_fails (binance e "ETHUSDT") = false →
     ∃ sb btc_df se eth_df,
       binance e "BTCUSDT" = Response sb (Some btc_df)
       ∧ binance e "ETHUSDT" = Response se (Some eth_df)
       ∧ files (run e fs).2 !! snapshot_file "BTCUSDT" (snapshot_today e)
         = Some (pd.price_df_to_csv btc_df)
       ∧ files (run e fs).2 !! snapshot_file "ETHUSDT" (snapshot_today e)
         = Some (pd.price_df_to_csv eth_df)).
Proof.
  split.
  - intros symbol date Hsym Hrun. apply run_files_other.
    + intros H. symmetry in H. by apply log_not_snapshot in H.
    + destruct Hrun as [Hmode|Hdate]; [by left|right].
      split; apply snapshot_file_other_date; auto.
  - intros Hmode Hb He.
    assert (∀ p, p ≠ log_filename e →
              files (run e fs).2 !! p = files (load_data e {| files := fs; trace := [] |}).2 !! p)
      as Hkeep.
    { intros p Hp. unfold run, script, mbind, M_bind.
      destruct (load_data e _) as [[dfs|ex|] w1]; cbn; [|done..].
      destruct (pipeline_spec e dfs.1 dfs.2 w1) as (evs & _ & _ & Hfiles).
      destruct (pipeline e dfs.1 dfs.2 w1) as [[[]|ex|] w2]; cbn in *.
      - destruct Hfiles as (entry & _ & ->). by rewrite lookup_insert_ne.
      - by rewrite Hfiles.
      - by rewrite Hfiles. }
    rewrite !Hkeep by (intros H; symmetry in H; by apply log_not_snapshot in H).
    destruct (load_data_live_ok e {| files := fs; trace := [] |} Hmode Hb He)
      as (sb & btc_df & se & eth_df & Eb & Ee & ->).
    exists sb, btc_df, se, eth_df. split; [done|]. split; [done|]. cbn. split.
    + rewrite lookup_insert_ne by (intros H; symmetry in H; by apply snapshot_file_btc_eth in H).
      by rewrite lookup_insert_eq.
    + by rewrite lookup_insert_eq.
Qed.

Lemma C5_witness :
  files (run (frozen_jan_1 NoResponse NoResponse)
           {[ snapshot_file "BTCUSDT" "2024-01-01" := pd.price_df_to_csv btc_9am ]}).2
    !! snapshot_file "BTCUSDT" "2024-01-01"
  = ({[ snapshot_file "BTCUSDT" "2024-01-01" := pd.price_df_to_csv btc_9am ]}
       : gmap string pd.csv) !! snapshot_file "BTCUSDT" "2024-01-01".
Proof.
  apply (proj1 (C5_snapshot_changed_only_by_live_run_of_its_day
                  (frozen_jan_1 NoResponse NoResponse) _)).
  - by left.
  - by left.
Defined.

(** ** Fetch failures (claims C6 and C10) *)

(** C6, as stated, fails: [raise_for_status] lets a 300 through.  When both
    replies have status 300 and a body that decodes, the run reaches its
    last line and the first thing it renders is the portfolio chart. *)
Lemma C6_counterexample_status_300 :
  let e := live_on_jan_1 (Response 300 (Some btc_9am)) (Response 300 (Some eth_9am)) in
  freeze_mode e = false
  ∧ non_2xx 300 = true
  ∧ (run e ∅).1 = Done tt
  ∧ ∃ traces,
      trace (run e ∅).2 !! 3%nat
      = Some (PlotlyChart "Portfolio Performance (Last 7 days, normalized)" traces).
Proof.
  cbv zeta. split; [reflexivity|]. split; [reflexivity|].
  split; [vm_compute; reflexivity|].
  eexists. vm_compute. reflexivity.
Qed.

(** C6 (amended): in live mode, when the fetch of either asset fails (no
    response, a 4xx or 5xx status, or a body that cannot be decoded), the
    run is halted by [st.stop()]: the error message is the last thing shown,
    everything before it is the sidebar note and the requests, so no chart,
    metric or banner is rendered, and no file is written. *)
Theorem C6_fetch_failure_aborts_run (e : env) (fs : gmap string pd.csv) :
  freeze_mode e = false →
  fetch_fails (binance e "BTCUSDT") || fetch_fails (binance e "ETHUSDT") = true →
  (∃ ex requests,
     Forall is_http_get requests
     ∧ run e fs
       = (Stopped, {| files := fs;
                      trace := SidebarSuccess :: requests ++ [StError ex] |}))
  ∧ Forall (λ ev, ¬ is_chart ev) (trace (run e fs).2).
Proof.
  intros Hmode Hfail.
  destruct (run_live_fetch_fails e fs Hmode Hfail) as (ex & rq & Hrq & Hrun).
  split; [by exists ex, rq|].
  rewrite Hrun. cbn. constructor; [by intros (? & ? & [=])|].
  apply Forall_app. split.
  - eapply Forall_impl; [exact Hrq|]. by intros ev [s ->] (? & ? & [=]).
  - constructor; [|done]. by intros (? & ? & [=]).
Qed.

Lemma C6_witness :
  (∃ ex requests,
     Forall is_http_get requests
     ∧ run (live_on_jan_1 (Response 200 (Some btc_9am)) (Response 503 None)) ∅
       = (Stopped, {| files := ∅;
                      trace := SidebarSuccess :: requests ++ [StError ex] |}))
  ∧ Forall (λ ev, ¬ is_chart ev)
      (trace (run (live_on_jan_1 (Response 200 (Some btc_9am)) (Response 503 None)) ∅).2).
Proof.
  apply (C6_fetch_failure_aborts_run
           (live_on_jan_1 (Response 200 (Some btc_9am)) (Response 503 None)) ∅);
    reflexivity.
Defined.

(** C10: in live mode, when the fetch of either asset fails, the files are
    left exactly as they were: no snapshot is written or overwritten. *)
Theorem C10_no_snapshot_on_failed_fetch (e : env) (fs : gmap string pd.csv) :
  freeze_mode e = false →
  fetch_fails (binance e "BTCUSDT") || fetch_fails (binance e "ETHUSDT") = true →
  files (run e fs).2 = fs.
Proof.
  intros Hmode Hfail.
  by destruct (run_live_fetch_fails e fs Hmode Hfail) as (ex & rq & _ & ->).
Qed.

Lemma C10_witness :
  files (run (live_on_jan_1 (Response 200 (Some btc_9am)) NoResponse)
           {[ snapshot_file "BTCUSDT" "2024-01-01" := pd.price_df_to_csv btc_9am ]}).2
  = {[ snapshot_file "BTCUSDT" "2024-01-01" := pd.price_df_to_csv btc_9am ]}.
Proof.
  apply (C10_no_snapshot_on_failed_fetch
           (live_on_jan_1 (Response 200 (Some btc_9am)) NoResponse));
    reflexivity.
Defined.

(** ** The daily log (claim C7) *)

(** C7, as stated, fails: a live page load whose fetch fails is an
    invocation, and it appends nothing; the log is not even created. *)
Lemma C7_counterexample_failed_fetch_logs_nothing :
  let e := live_on_jan_1 NoResponse NoResponse in
  (run e ∅).1 = Stopped
  ∧ files (run e ∅).2 !! log_filename e = None.
Proof. cbv zeta. split; vm_compute; reflexivity. Qed.

(** C7 (amended): a run that does not reach its last line leaves the log of
    the day untouched; and for every non-empty sequence of page loads on the
    same calendar date, live or frozen, that all run to completion, the log
    of that date ends up as its previous content (or just the header, when
    the file did not exist) followed by one data row per page load. *)
Theorem C7_completed_runs_append_one_row_each :
  (∀ e fs, (run e fs).1 ≠ Done tt →
     files (run e fs).2 !! log_filename e = fs !! log_filename e)
  ∧ (∀ es fs d,
       es ≠ [] → Forall (λ e, log_today e = d) es → all_done es fs →
       ∃ rows,
         length rows = length es
         ∧ Forall (λ row, is_log_entry row ∧ row ≠ log_header) rows
         ∧ session es fs !! log_file d
           = Some (default [log_header] (fs !! log_file d) ++ rows)).
Proof.
  split.
  - intros e fs Hrun.
    destruct (run_files_spec e fs) as (fs1 & _ & Hother & Hfiles).
    destruct ((run e fs).1) as [[]|ex|]; [done| |];
      rewrite Hfiles; apply Hother; apply log_not_snapshot.
  - intros es fs d Hne Hday Hdone.
    destruct (session_log es fs d Hday Hdone) as (rows & Hlen & Hrows & Hlog).
    exists rows. by destruct es.
Qed.

Lemma C7_witness :
  let first := live_on_jan_1 (Response 200 (Some btc_9am)) (Response 200 (Some eth_9am)) in
  let second := live_on_jan_1 (Response 200 (Some btc_10am)) (Response 200 (Some eth_10am)) in
  ∃ rows,
    length rows = 2%nat
    ∧ Forall (λ row, is_log_entry row ∧ row ≠ log_header) rows
    ∧ session [first; second] ∅ !! log_file "2024-01-01" = Some (log_header :: rows).
Proof.
  cbv zeta.
  refine (proj2 C7_completed_runs_append_one_row_each
            [live_on_jan_1 (Response 200 (Some btc_9am)) (Response 200 (Some eth_9am));
             live_on_jan_1 (Response 200 (Some btc_10am)) (Response 200 (Some eth_10am))]
            ∅ "2024-01-01" _ _ _).
  - discriminate.
  - repeat constructor.
  - split; [vm_compute; reflexivity|]. split; [vm_compute; reflexivity|]. exact I.
Defined.

(** ** Freeze mode (claim C8) *)

(** C8: when a historical date is selected, the run requests nothing from
    the network and does not depend on what the exchange would reply or on
    the date used for saving snapshots; every snapshot file is left as it
    was; and the run is the pipeline applied to the two stored snapshots
    of the selected date as they are read from the files. *)
Theorem C8_freeze_mode_reads_snapshots_only (e : env) (fs : gmap string pd.csv) :
  freeze_mode e = true →
  (∀ symbol, HttpGet symbol ∉ trace (run e fs).2)
  ∧ (∀ e', snapshot_choice e' = snapshot_choice e →
           log_today e' = log_today e → log_now e' = log_now e →
           run e' fs = run e fs)
  ∧ (∀ symbol date,
       files (run e fs).2 !! snapshot_file symbol date = fs !! snapshot_file symbol date)
  ∧ run e fs
    = (btc_df ← lift (pd.read_csv (fs !! snapshot_file "BTCUSDT" (snapshot_choice e)));
       eth_df ← lift (pd.read_csv (fs !! snapshot_file "ETHUSDT" (snapshot_choice e)));
       pipeline e btc_df eth_df)
        {| files := fs; trace := [SidebarInfo (snapshot_choice e)] |}.
Proof.
  intros Hmode. split; [|split; [|split]].
  - intros symbol Hin.
    pose proof (run_frozen_trace e fs Hmode) as Hall.
    rewrite Forall_forall in Hall. exact (Hall _ Hin).
  - intros e' Hchoice Htoday Hnow.
    assert (freeze_mode e' = true) as Hmode'.
    { unfold freeze_mode in *. by rewrite Hchoice. }
    rewrite !run_frozen by done. rewrite Hchoice.
    unfold mbind, M_bind, lift.
    destruct (pd.read_csv _); [|done]. destruct (pd.read_csv _); [|done].
    by rewrite (pipeline_env e e').
  - intros symbol date. apply run_files_other; [|by left].
    intros H. symmetry in H. by apply log_not_snapshot in H.
  - by apply run_frozen.
Qed.

Lemma C8_witness :
  let e := frozen_jan_1 NoResponse NoResponse in
  let fs : gmap string pd.csv :=
    {[ snapshot_file "BTCUSDT" "2024-01-01" := pd.price_df_to_csv btc_9am;
       snapshot_file "ETHUSDT" "2024-01-01" := pd.price_df_to_csv eth_9am ]} in
  (HttpGet "BTCUSDT" ∉ trace (run e fs).2)
  ∧ (files (run e fs).2 !! snapshot_file "BTCUSDT" "2024-01-01"
     = fs !! snapshot_file "BTCUSDT" "2024-01-01").
Proof.
  cbv zeta.
  destruct (C8_freeze_mode_reads_snapshots_only
              (frozen_jan_1 NoResponse NoResponse)
              {[ snapshot_file "BTCUSDT" "2024-01-01" := pd.price_df_to_csv btc_9am;
                 snapshot_file "ETHUSDT" "2024-01-01" := pd.price_df_to_csv eth_9am ]}
              eq_refl) as (Hnet & _ & Hfiles & _).
  split; [apply Hnet | apply Hfiles].
Defined.


(* ================================================================== *)
(** * Part III: further properties of the script                       *)
(* ================================================================== *)

(** ** The order of the two fetches (lines 72-77) *)

(** X1: in live mode the BTC series is requested first.  When the reply is
    a 4xx or 5xx status the error shown carries that status, the run stops,
    and the ETH series is never requested. *)
Theorem btc_http_error_stops_before_eth (e : env) (fs : gmap string pd.csv) status body :
  freeze_mode e = false →
  binance e "BTCUSDT" = Response status body →
  400 ≤ status < 600 →
  run e fs
  = (Stopped, {| files := fs;
                 trace := [SidebarSuccess; HttpGet "BTCUSDT"; StError (HTTPError status)] |}).
Proof.
  intros Hmode Hreply Hstatus.
  unfold run, script, load_data. rewrite Hmode.
  unfold mbind, M_bind, try_except, get_binance_data, raise_for_status, emit, lift, st_stop.
  cbn. rewrite Hreply.
  assert ((400 <=? status) && (status <? 600) = true) as ->.
  { apply andb_true_iff. split; [apply Z.leb_le | apply Z.ltb_lt]; lia. }
  reflexivity.
Qed.

Lemma btc_http_error_stops_before_eth_witness :
  run (live_on_jan_1 (Response 429 None) (Response 200 (Some eth_9am))) ∅
  = (Stopped, {| files := ∅;
                 trace := [SidebarSuccess; HttpGet "BTCUSDT"; StError (HTTPError 429)] |}).
Proof.
  apply (btc_http_error_stops_before_eth
           (live_on_jan_1 (Response 429 None) (Response 200 (Some eth_9am))) ∅ 429 None);
    [reflexivity | reflexivity | lia].
Defined.

(** ** Missing snapshots in freeze mode (lines 64-69) *)

(** X2: in freeze mode, when the snapshot of either asset for the selected
    date is missing, the run ends with an exception right after the sidebar
    note: nothing is rendered, no file is changed and no log row is written.
    The exception is [FileNotFoundError] when the BTC file is the missing
    one or when it can be read. *)
Theorem frozen_missing_snapshot_raises (e : env) (fs : gmap string pd.csv) :
  freeze_mode e = true →
  fs !! snapshot_file "BTCUSDT" (snapshot_choice e) = None
  ∨ fs !! snapshot_file "ETHUSDT" (snapshot_choice e) = None →
  ∃ ex,
    run e fs
    = (Raised ex, {| files := fs; trace := [SidebarInfo (snapshot_choice e)] |})
    ∧ (fs !! snapshot_file "BTCUSDT" (snapshot_choice e) = None → ex = FileNotFoundError)
    ∧ (∀ df, pd.read_csv (fs !! snapshot_file "BTCUSDT" (snapshot_choice e)) = Ok df →
             ex = FileNotFoundError).
Proof.
  intros Hmode Hmissing. rewrite run_frozen by done.
  unfold mbind, M_bind, lift.
  destruct (fs !! snapshot_file "BTCUSDT" (snapshot_choice e)) as [btc_content|] eqn:Hb.
  - destruct Hmissing as [?|He]; [done|]. rewrite He.
    destruct (pd.read_csv (Some btc_content)) as [df|ex]; cbn.
    + exists FileNotFoundError. by repeat split.
    + exists ex. by repeat split.
  - cbn. exists FileNotFoundError. by repeat split.
Qed.

Lemma frozen_missing_snapshot_raises_witness :
  ∃ ex,
    run (frozen_jan_1 NoResponse NoResponse)
      {[ snapshot_file "BTCUSDT" "2024-01-01" := pd.price_df_to_csv btc_9am ]}
    = (Raised ex,
       {| files := {[ snapshot_file "BTCUSDT" "2024-01-01" := pd.price_df_to_csv btc_9am ]};
          trace := [SidebarInfo "2024-01-01"] |})
    ∧ (({[ snapshot_file "BTCUSDT" "2024-01-01" := pd.price_df_to_csv btc_9am ]}
          : gmap string pd.csv) !! snapshot_file "BTCUSDT" "2024-01-01" = None →
       ex = FileNotFoundError)
    ∧ (∀ df,
         pd.read_csv
           (({[ snapshot_file "BTCUSDT" "2024-01-01" := pd.price_df_to_csv btc_9am ]}
               : gmap string pd.csv) !! snapshot_file "BTCUSDT" "2024-01-01") = Ok df →
         ex = FileNotFoundError).
Proof.
  apply (frozen_missing_snapshot_raises (frozen_jan_1 NoResponse NoResponse)
           {[ snapshot_file "BTCUSDT" "2024-01-01" := pd.price_df_to_csv btc_9am ]}).
  - reflexivity.
  - right. vm_compute. reflexivity.
Defined.

(** ** Empty replies (lines 72-95) *)

(** X3: in live mode, when the exchange replies to both requests with an
    empty list of klines, the two snapshots of the day are written with
    their header only, and then [iloc[0]] raises [IndexError] on the empty
    frame: no chart is rendered and no log row is written. *)
Theorem empty_replies_raise_after_saving (e : env) (fs : gmap string pd.csv) sb se :
  freeze_mode e = false →
  binance e "BTCUSDT" = Response sb (Some []) →
  binance e "ETHUSDT" = Response se (Some []) →
  ¬ 400 ≤ sb < 600 → ¬ 400 ≤ se < 600 →
  run e fs
  = (Raised IndexError,
     {| files :=
          <[snapshot_file "ETHUSDT" (snapshot_today e) := [pd.snapshot_header]]>
            (<[snapshot_file "BTCUSDT" (snapshot_today e) := [pd.snapshot_header]]> fs);
        trace := [SidebarSuccess; HttpGet "BTCUSDT"; HttpGet "ETHUSDT"] |}).
Proof.
  intros Hmode Hb He Hsb Hse.
  assert (fetch_fails (binance e "BTCUSDT") = false) as Hfb.
  { rewrite Hb. cbn. apply orb_false_iff. split; [|done].
    apply andb_false_iff. destruct (Z.leb_spec 400 sb); [right|by left].
    apply Z.ltb_ge. lia. }
  assert (fetch_fails (binance e "ETHUSDT") = false) as Hfe.
  { rewrite He. cbn. apply orb_false_iff. split; [|done].
    apply andb_false_iff. destruct (Z.leb_spec 400 se); [right|by left].
    apply Z.ltb_ge. lia. }
  unfold run, script. unfold mbind at 1, M_bind at 1.
  destruct (load_data_live_ok e {| files := fs; trace := [] |} Hmode Hfb Hfe)
    as (sb' & b & se' & d & Eb & Ee & ->).
  assert (b = []) as -> by congruence. assert (d = []) as -> by congruence.
  reflexivity.
Qed.

Lemma empty_replies_raise_after_saving_witness :
  run (live_on_jan_1 (Response 200 (Some [])) (Response 200 (Some []))) ∅
  = (Raised IndexError,
     {| files :=
          <[snapshot_file "ETHUSDT" "2024-01-01" := [pd.snapshot_header]]>
            (<[snapshot_file "BTCUSDT" "2024-01-01" := [pd.snapshot_header]]> ∅);
        trace := [SidebarSuccess; HttpGet "BTCUSDT"; HttpGet "ETHUSDT"] |}).
Proof.
  apply (empty_replies_raise_after_saving
           (live_on_jan_1 (Response 200 (Some [])) (Response 200 (Some []))) ∅ 200 200);
    [reflexivity | reflexivity | reflexivity | lia | lia].
Defined.

(** ** The daily logs over any sequence of page loads (lines 195-214) *)

Lemma log_file_inj d d' : log_file d = log_file d' → d = d'.
Proof.
  cbv [log_file String.append]. intros H.
  injection H as H. by eapply string_app_inv_tail.
Qed.

Lemma log_file_not_snapshot d symbol date : log_file d ≠ snapshot_file symbol date.
Proof. cbv [log_file snapshot_file raw_data_dir String.append]. discriminate. Qed.

(** What one page load, however it ends, does to the log of a date: it
    leaves it alone, or appends one data row (after the header, when the
    file is new). *)
Lemma run_log_step e fs d :
  files (run e fs).2 !! log_file d = fs !! log_file d
  ∨ ∃ entry, is_log_entry entry
      ∧ files (run e fs).2 !! log_file d
        = Some (default [log_header] (fs !! log_file d) ++ [entry]).
Proof.
  destruct (decide (log_today e = d)) as [<-|Hd].
  - destruct (run_files_spec e fs) as (fs1 & _ & Hother & Hrun).
    change (log_file (log_today e)) with (log_filename e).
    destruct ((run e fs).1) as [[]|ex|].
    + right. destruct Hrun as (entry & Hentry & ->).
      exists entry. split; [done|]. by rewrite lookup_insert_eq.
    + left. rewrite Hrun. apply Hother; apply log_not_snapshot.
    + left. rewrite Hrun. apply Hother; apply log_not_snapshot.
  - left. apply run_files_other.
    + unfold log_filename. intros H. apply log_file_inj in H. congruence.
    + right. split; apply log_file_not_snapshot.
Qed.

Lemma log_ok_step content entry :
  log_ok content → is_log_entry entry →
  log_ok (Some (default [log_header] content ++ [entry])).
Proof.
  intros Hok Hentry. destruct content as [lines|]; cbn.
  - destruct Hok as (rows & -> & Hrows). exists (rows ++ [entry]).
    split; [done|]. apply Forall_app. by split; [|constructor].
  - exists [entry]. split; [done|]. by constructor.
Qed.

(** Page loads keep a log made of the header and data rows in that
    shape. *)
Lemma session_log_ok (es : list env) (fs : gmap string pd.csv) (d : string) :
  log_ok (fs !! log_file d) → log_ok (session es fs !! log_file d).
Proof.
  revert fs. induction es as [|e es IH]; intros fs Hok; [done|].
  change (session (e :: es) fs) with (session es (files (run e fs).2)).
  apply IH. destruct (run_log_step e fs d) as [->|(entry & Hentry & ->)]; [done|].
  by apply log_ok_step.
Qed.

(** Page loads only add lines to the lines of a log. *)
Lemma session_log_appends (es : list env) (fs : gmap string pd.csv) (d : string) old :
  fs !! log_file d = Some old →
  ∃ rows,
    session es fs !! log_file d = Some (old ++ rows)
    ∧ Forall is_log_entry rows
    ∧ (length rows ≤ length es)%nat.
Proof.
  revert fs old. induction es as [|e es IH]; intros fs old Hold.
  - exists []. by rewrite app_nil_r.
  - change (session (e :: es) fs) with (session es (files (run e fs).2)).
    destruct (run_log_step e fs d) as [Hsame|(entry & Hentry & Happ)].
    + rewrite Hold in Hsame. destruct (IH _ _ Hsame) as (rows & -> & Hrows & Hlen).
      exists rows. split; [done|]. split; [done|]. cbn. lia.
    + rewrite Hold in Happ. cbn in Happ.
      destruct (IH _ _ Happ) as (rows & -> & Hrows & Hlen).
      exists (entry :: rows). split; [by rewrite <- app_assoc|].
      split; [by constructor|]. cbn. lia.
Qed.

(** X4: a log that the script creates is well formed.  Starting without
    the log of a date, after any sequence of page loads, live or frozen,
    on any dates, whether they complete, stop or raise, that log is still
    absent or holds the header followed by data rows only. *)
Theorem created_log_has_header_then_rows
    (es : list env) (fs : gmap string pd.csv) (d : string) :
  fs !! log_file d = None → log_ok (session es fs !! log_file d).
Proof. intros Hnone. apply session_log_ok. by rewrite Hnone. Qed.

Lemma created_log_has_header_then_rows_witness :
  log_ok (session [live_on_jan_1 (Response 200 (Some btc_9am)) (Response 200 (Some eth_9am));
                   live_on_jan_1 NoResponse NoResponse;
                   frozen_jan_1 NoResponse NoResponse] ∅
            !! log_file "2024-01-01").
Proof.
  apply (created_log_has_header_then_rows
           [live_on_jan_1 (Response 200 (Some btc_9am)) (Response 200 (Some eth_9am));
            live_on_jan_1 NoResponse NoResponse;
            frozen_jan_1 NoResponse NoResponse] ∅ "2024-01-01").
  reflexivity.
Defined.

(** X5: a log that the script creates is append-only.  Starting without
    the log of a date, whatever the log holds after some page loads, after
    any further page loads it holds the same lines followed by at most one
    new data row per further page load; nothing is rewritten or
    removed. *)
Theorem created_log_is_append_only
    (es1 es2 : list env) (fs : gmap string pd.csv) (d : string) old :
  fs !! log_file d = None →
  session es1 fs !! log_file d = Some old →
  ∃ rows,
    session (es1 ++ es2) fs !! log_file d = Some (old ++ rows)
    ∧ Forall is_log_entry rows
    ∧ (length rows ≤ length es2)%nat.
Proof.
  intros _ Hold. unfold session. rewrite foldl_app. by apply session_log_appends.
Qed.

Lemma created_log_is_append_only_witness :
  let first := live_on_jan_1 (Response 200 (Some btc_9am)) (Response 200 (Some eth_9am)) in
  let later := [live_on_jan_1 (Response 200 (Some btc_10am)) (Response 200 (Some eth_10am));
                live_on_jan_1 NoResponse NoResponse] in
  ∃ old rows,
    session [first] ∅ !! log_file "2024-01-01" = Some old
    ∧ session ([first] ++ later) ∅ !! log_file "2024-01-01" = Some (old ++ rows)
    ∧ Forall is_log_entry rows
    ∧ (length rows ≤ 2)%nat.
Proof.
  cbv zeta. eexists. 
  pose proof (created_log_is_append_only
    [live_on_jan_1 (Response 200 (Some btc_9am)) (Response 200 (Some eth_9am))]
    [live_on_jan_1 (Response 200 (Some btc_10am)) (Response 200 (Some eth_10am));
     live_on_jan_1 NoResponse NoResponse]
    ∅ "2024-01-01" _ eq_refl eq_refl) as (rows & Hrows & Hentries & Hlen).
  exists rows. split; [reflexivity|]. by split.
Defined.

(** ** What a completed page load shows (lines 87-229) *)

(** The pipeline, once every [iloc] has found its value. *)
Lemma pipeline_done e b d w data btc eth el bl bp ep ml :
  combine b d = Ok data →
  normalized (pd.BTC_USD data) = Ok btc →
  normalized (pd.ETH_USD data) = Ok eth →
  pd.iloc_last eth = Ok el → pd.iloc_last btc = Ok bl →
  pd.iloc_last (pd.BTC_USD data) = Ok bp → pd.iloc_last (pd.ETH_USD data) = Ok ep →
  pd.iloc_last (mix_50_50 btc eth) = Ok ml →
  let entry :=
    log_entry (log_now e) bp ep bl el ml (el / bl) ((bl - 1) * 100) ((el - 1) * 100)
      ((el - 1) * 100 - (bl - 1) * 100) in
  let content := default [log_header] (files w !! log_filename e) ++ [entry] in
  pipeline e b d w
  = (Done tt,
     {| files := <[log_filename e := content]> (files w);
        trace :=
          trace w ++
          [PlotlyChart "Portfolio Performance (Last 7 days, normalized)"
             [btc; eth; mix_50_50 btc eth];
           PlotlyChart "Bitcoin (BTC-USD) Price (Last 7 days) & 7-period EMA"
             [pd.BTC_USD data; pd.ewm_mean ema_period (pd.BTC_USD data)];
           PlotlyChart "Ethereum (ETH-USD) Price (Last 7 days) & 7-period EMA"
             [pd.ETH_USD data; pd.ewm_mean ema_period (pd.ETH_USD data)];
           Metric "BTC normalized" bl ((bl - 1) * 100);
           Metric "ETH normalized" el ((el - 1) * 100);
           Metric "ETH/BTC ratio" (el / bl) ((el - 1) * 100 - (bl - 1) * 100);
           leading_signal el bl (el / bl);
           DownloadButton content ("crypto_tracker_" +:+ log_today e +:+ ".csv");
           Logged (log_filename e); Markdown; Caption] |}).
Proof.
  intros Hdata Hbtc Heth Hel Hbl Hbp Hep Hml. cbv zeta.
  unfold pipeline, mbind, M_bind, lift, emit.
  rewrite Hdata, Hbtc, Heth. cbn. rewrite Hel, Hbl. cbn. rewrite Hbp, Hep, Hml.
  unfold write_log, append_file, write_file, read_file, mbind, M_bind. cbn.
  destruct (files w !! log_filename e) as [old|] eqn:Hold; cbn;
    rewrite ?Hold, ?lookup_insert_eq; cbn; rewrite <- !app_assoc; reflexivity.
Qed.

(** A pipeline that reached its last line found every value. *)
Lemma pipeline_done_inv e b d w :
  (pipeline e b d w).1 = Done tt →
  ∃ data btc eth el bl bp ep ml,
    combine b d = Ok data
    ∧ normalized (pd.BTC_USD data) = Ok btc
    ∧ normalized (pd.ETH_USD data) = Ok eth
    ∧ pd.iloc_last eth = Ok el ∧ pd.iloc_last btc = Ok bl
    ∧ pd.iloc_last (pd.BTC_USD data) = Ok bp ∧ pd.iloc_last (pd.ETH_USD data) = Ok ep
    ∧ pd.iloc_last (mix_50_50 btc eth) = Ok ml.
Proof.
  unfold pipeline, mbind, M_bind, lift, emit.
  destruct (combine b d) as [data|] eqn:H1; [|done].
  destruct (normalized (pd.BTC_USD data)) as [btc|] eqn:H2; [|done].
  destruct (normalized (pd.ETH_USD data)) as [eth|] eqn:H3; [|done].
  cbn.
  destruct (pd.iloc_last eth) as [el|] eqn:H4; [|done].
  destruct (pd.iloc_last btc) as [bl|] eqn:H5; [|done].
  cbn.
  destruct (pd.iloc_last (pd.BTC_USD data)) as [bp|] eqn:H6; [|done].
  destruct (pd.iloc_last (pd.ETH_USD data)) as [ep|] eqn:H7; [|done].
  destruct (pd.iloc_last (mix_50_50 btc eth)) as [ml|] eqn:H8; [|done].
  intros _. by exists data, btc, eth, el, bl, bp, ep, ml.
Qed.

(** A run that reached its last line is the pipeline on the loaded data. *)
Lemma run_done_inv e fs :
  (run e fs).1 = Done tt →
  ∃ btc_df eth_df w1,
    load_data e {| files := fs; trace := [] |} = (Done (btc_df, eth_df), w1)
    ∧ files w1 !! log_filename e = fs !! log_filename e
    ∧ run e fs = pipeline e btc_df eth_df w1.
Proof.
  destruct (load_data_files e {| files := fs; trace := [] |}) as [_ Hother].
  unfold run, script, mbind, M_bind.
  destruct (load_data e {| files := fs; trace := [] |})
    as [[[btc_df eth_df]|ex|] w1]; [|done..].
  intros _. exists btc_df, eth_df, w1. split; [reflexivity|]. split; [|reflexivity].
  apply Hother; apply log_not_snapshot.
Qed.

Lemma iloc_last_inv col x : pd.iloc_last col = Ok x → last col = Some x.
Proof. unfold pd.iloc_last. destruct (last col); [congruence|done]. Qed.

(** X6: in a page load that completes, the banner, the three metric tiles
    and the log row show the same numbers, read from the last row of the
    data: the tiles show the last values of the normalized BTC and ETH
    columns of the aligned frame of the loaded series, the verdict of the
    banner is the comparison of these two values, the ratio is their
    quotient, and the row appended to the log records them with the last
    prices and the last value of the 50/50 curve. *)
Theorem banner_metrics_and_log_agree (e : env) (fs : gmap string pd.csv) :
  (run e fs).1 = Done tt →
  ∃ btc_df eth_df w1 data btc eth btc_last eth_last btc_price eth_price mix_last,
    let ratio := (eth_last / btc_last)%float in
    let btc_pct := ((btc_last - 1) * 100)%float in
    let eth_pct := ((eth_last - 1) * 100)%float in
    load_data e {| files := fs; trace := [] |} = (Done (btc_df, eth_df), w1)
    ∧ combine btc_df eth_df = Ok data
    ∧ normalized (pd.BTC_USD data) = Ok btc
    ∧ normalized (pd.ETH_USD data) = Ok eth
    ∧ last btc = Some btc_last ∧ last eth = Some eth_last
    ∧ last (pd.BTC_USD data) = Some btc_price
    ∧ last (pd.ETH_USD data) = Some eth_price
    ∧ last (mix_50_50 btc eth) = Some mix_last
    ∧ Metric "BTC normalized" btc_last btc_pct ∈ trace (run e fs).2
    ∧ Metric "ETH normalized" eth_last eth_pct ∈ trace (run e fs).2
    ∧ Metric "ETH/BTC ratio" ratio (eth_pct - btc_pct) ∈ trace (run e fs).2
    ∧ leading_signal eth_last btc_last ratio ∈ trace (run e fs).2
    ∧ last <$> files (run e fs).2 !! log_filename e
      = Some (Some (log_entry (log_now e) btc_price eth_price btc_last eth_last mix_last
                      ratio btc_pct eth_pct (eth_pct - btc_pct))).
Proof.
  intros Hdone.
  destruct (run_done_inv e fs Hdone) as (b & d & w1 & Hload & _ & Hrun).
  rewrite Hrun in Hdone |- *.
  destruct (pipeline_done_inv e b d w1 Hdone)
    as (data & btc & eth & el & bl & bp & ep & ml & H1 & H2 & H3 & H4 & H5 & H6 & H7 & H8).
  rewrite (pipeline_done e b d w1 data btc eth el bl bp ep ml) by done.
  exists b, d, w1, data, btc, eth, bl, el, bp, ep, ml. cbn.
  split_and!; try done; try by apply iloc_last_inv.
  - apply elem_of_app. right. do 3 right. left.
  - apply elem_of_app. right. do 4 right. left.
  - apply elem_of_app. right. do 5 right. left.
  - apply elem_of_app. right. do 6 right. left.
  - rewrite lookup_insert_eq. cbn. by rewrite last_snoc.
Qed.

Lemma banner_metrics_and_log_agree_witness :
  let e := live_on_jan_1 (Response 200 (Some btc_9am)) (Response 200 (Some eth_9am)) in
  ∃ btc_df eth_df w1 data btc eth btc_last eth_last btc_price eth_price mix_last,
    let ratio := (eth_last / btc_last)%float in
    let btc_pct := ((btc_last - 1) * 100)%float in
    let eth_pct := ((eth_last - 1) * 100)%float in
    load_data e {| files := ∅; trace := [] |} = (Done (btc_df, eth_df), w1)
    ∧ combine btc_df eth_df = Ok data
    ∧ normalized (pd.BTC_USD data) = Ok btc
    ∧ normalized (pd.ETH_USD data) = Ok eth
    ∧ last btc = Some btc_last ∧ last eth = Some eth_last
    ∧ last (pd.BTC_USD data) = Some btc_price
    ∧ last (pd.ETH_USD data) = Some eth_price
    ∧ last (mix_50_50 btc eth) = Some mix_last
    ∧ Metric "BTC normalized" btc_last btc_pct ∈ trace (run e ∅).2
    ∧ Metric "ETH normalized" eth_last eth_pct ∈ trace (run e ∅).2
    ∧ Metric "ETH/BTC ratio" ratio (eth_pct - btc_pct) ∈ trace (run e ∅).2
    ∧ leading_signal eth_last btc_last ratio ∈ trace (run e ∅).2
    ∧ last <$> files (run e ∅).2 !! log_filename e
      = Some (Some (log_entry (log_now e) btc_price eth_price btc_last eth_last mix_last
                      ratio btc_pct eth_pct (eth_pct - btc_pct))).
Proof.
  apply (banner_metrics_and_log_agree
           (live_on_jan_1 (Response 200 (Some btc_9am)) (Response 200 (Some eth_9am))) ∅).
  vm_compute. reflexivity.
Defined.

(** X7: in a page load that completes, the file offered by the download
    button is the log of the day as the run leaves it: what was there
    before (or the header), followed by the row of this page load. *)
Theorem download_offers_log_with_new_row (e : env) (fs : gmap string pd.csv) :
  (run e fs).1 = Done tt →
  ∃ entry,
    let content := default [log_header] (fs !! log_filename e) ++ [entry] in
    is_log_entry entry
    ∧ files (run e fs).2 !! log_filename e = Some content
    ∧ DownloadButton content ("crypto_tracker_" +:+ log_today e +:+ ".csv")
        ∈ trace (run e fs).2.
Proof.
  intros Hdone.
  destruct (run_done_inv e fs Hdone) as (b & d & w1 & _ & Hlog & Hrun).
  rewrite Hrun in Hdone |- *.
  destruct (pipeline_done_inv e b d w1 Hdone)
    as (data & btc & eth & el & bl & bp & ep & ml & H1 & H2 & H3 & H4 & H5 & H6 & H7 & H8).
  rewrite (pipeline_done e b d w1 data btc eth el bl bp ep ml) by done.
  eexists. cbn. rewrite Hlog. split; [apply is_log_entry_intro|].
  split; [by rewrite lookup_insert_eq|].
  apply elem_of_app. right. do 7 right. left.
Qed.

Lemma download_offers_log_with_new_row_witness :
  ∃ entry,
    let e := live_on_jan_1 (Response 200 (Some btc_9am)) (Response 200 (Some eth_9am)) in
    let content :=
      default [log_header] ((∅ : gmap string pd.csv) !! log_filename e) ++ [entry] in
    is_log_entry entry
    ∧ files (run e ∅).2 !! log_filename e = Some content
    ∧ DownloadButton content ("crypto_tracker_" +:+ log_today e +:+ ".csv")
        ∈ trace (run e ∅).2.
Proof.
  apply (download_offers_log_with_new_row
           (live_on_jan_1 (Response 200 (Some btc_9am)) (Response 200 (Some eth_9am))) ∅).
  vm_compute. reflexivity.
Defined.

(** ** Missing data and the banner (lines 175-190) *)

Lemma ltb_nan_l x : (nan <? x)%float = false.
Proof. by rewrite ltb_spec, Prim2SF_nan. Qed.

Lemma ltb_nan_r x : (x <? nan)%float = false.
Proof. rewrite ltb_spec, Prim2SF_nan. unfold SFltb. by destruct (Prim2SF x). Qed.

Lemma sub_nan_l y : (nan - y)%float = nan.
Proof. apply Prim2SF_inj. by rewrite sub_spec, Prim2SF_nan. Qed.

Lemma mul_nan_l y : (nan * y)%float = nan.
Proof. apply Prim2SF_inj. by rewrite mul_spec, Prim2SF_nan. Qed.

(** X8: when either of the two last normalized values is missing (NaN), the
    banner is "BTC leading": missing data is never reported as an ETH
    recovery. *)
Theorem missing_value_reports_btc_leading (eth_last btc_last ratio : float) :
  isna eth_last = true ∨ isna btc_last = true →
  leading_signal eth_last btc_last ratio = BtcLeading ratio.
Proof.
  unfold leading_signal. intros [->%isna_true | ->%isna_true].
  - by rewrite ltb_nan_r.
  - by rewrite ltb_nan_l.
Qed.

Lemma missing_value_reports_btc_leading_witness :
  leading_signal nan 1.5 nan = BtcLeading nan.
Proof.
  apply (missing_value_reports_btc_leading nan 1.5 nan). left. reflexivity.
Defined.

Lemma ffill_from_all_nan col : all_nan col → pd.ffill_from nan col = col.
Proof.
  induction 1 as [|x col -> _ IH]; [done|]. cbn. by rewrite IH.
Qed.

Lemma bfill_all_nan col : all_nan col → pd.bfill col = col.
Proof.
  induction 1 as [|x col -> Hcol IH]; [done|]. cbn. rewrite IH.
  f_equal. by destruct Hcol.
Qed.

Lemma normalized_all_nan col norm :
  all_nan col → normalized col = Ok norm → all_nan norm.
Proof.
  intros Hcol Hnorm. destruct col as [|x0 col]; [done|].
  rewrite (normalized_first (x0 :: col) x0) in Hnorm by done.
  assert (norm = (λ x, x / x0)%float <$> (x0 :: col)) as -> by congruence.
  apply Forall_fmap. eapply Forall_impl; [exact Hcol|].
  intros x ->. cbn. apply div_nan_l.
Qed.

Lemma iloc_last_all_nan col x : all_nan col → pd.iloc_last col = Ok x → x = nan.
Proof.
  unfold pd.iloc_last. intros Hcol. destruct (last col) as [y|] eqn:Hlast; [|done].
  intros [= <-]. apply last_Some_elem_of in Hlast.
  unfold all_nan in Hcol. rewrite Forall_forall in Hcol. by apply Hcol.
Qed.

(** With no ETH row at all, the ETH column of the frame is all NaN. *)
Lemma combine_eth_empty btc_df data :
  btc_df ≠ [] → combine btc_df [] = Ok data → all_nan (pd.ETH_USD data).
Proof.
  intros Hne. unfold combine, pd.concat.
  destruct (decide (btc_df.*1 = [].*1)) as [Heq|_]; [by destruct btc_df|].
  rewrite decide_True by done. cbn. intros [= <-]. cbn.
  assert (all_nan (pd.reindex [] (btc_df.*1))) as Hnan.
  { apply Forall_fmap, Forall_forall. by intros t _. }
  unfold pd.ffill. by rewrite ffill_from_all_nan, bfill_all_nan.
Qed.

(** X9: in live mode, when the exchange replies with klines for BTC (one
    per open time, at least one) and with an empty list for ETH, the page
    load still completes: the ETH tile shows NaN and the banner is "BTC
    leading" with a NaN ratio. *)
Theorem empty_eth_reply_shows_btc_leading (e : env) (fs : gmap string pd.csv) sb se btc_df :
  freeze_mode e = false →
  binance e "BTCUSDT" = Response sb (Some btc_df) →
  binance e "ETHUSDT" = Response se (Some []) →
  ¬ 400 ≤ sb < 600 → ¬ 400 ≤ se < 600 →
  btc_df ≠ [] → NoDup (btc_df.*1) →
  (run e fs).1 = Done tt
  ∧ Metric "ETH normalized" nan nan ∈ trace (run e fs).2
  ∧ BtcLeading nan ∈ trace (run e fs).2.
Proof.
  intros Hmode Hb He Hsb Hse Hne Hnd.
  assert (fetch_fails (binance e "BTCUSDT") = false) as Hfb.
  { rewrite Hb. cbn. apply orb_false_iff. split; [|done].
    apply andb_false_iff. destruct (Z.leb_spec 400 sb); [right|by left].
    apply Z.ltb_ge. lia. }
  assert (fetch_fails (binance e "ETHUSDT") = false) as Hfe.
  { rewrite He. cbn. apply orb_false_iff. split; [|done].
    apply andb_false_iff. destruct (Z.leb_spec 400 se); [right|by left].
    apply Z.ltb_ge. lia. }
  assert ((run e fs).1 = Done tt) as Hdone.
  { eapply run_live_completes; eauto. constructor. }
  split; [done|].
  destruct (run_done_inv e fs Hdone) as (b & d & w1 & Hload & _ & Hrun).
  destruct (load_data_live_ok e {| files := fs; trace := [] |} Hmode Hfb Hfe)
    as (sb' & b' & se' & d' & Eb & Ee & Hload').
  assert (b = btc_df ∧ d = []) as [-> ->] by (split; congruence).
  rewrite Hrun in Hdone |- *.
  destruct (pipeline_done_inv e btc_df [] w1 Hdone)
    as (data & btc & eth & el & bl & bp & ep & ml & H1 & H2 & H3 & H4 & H5 & H6 & H7 & H8).
  rewrite (pipeline_done e btc_df [] w1 data btc eth el bl bp ep ml) by done.
  assert (el = nan) as ->.
  { eapply iloc_last_all_nan; [|exact H4].
    eapply normalized_all_nan; [|exact H3]. by eapply combine_eth_empty. }
  cbn. split.
  - apply elem_of_app. right. do 4 right. rewrite ?sub_nan_l, ?mul_nan_l. left.
  - apply elem_of_app. right. do 6 right.
    rewrite div_nan_l. unfold leading_signal. rewrite ltb_nan_r. left.
Qed.

Lemma empty_eth_reply_shows_btc_leading_witness :
  let e := live_on_jan_1 (Response 200 (Some btc_9am)) (Response 200 (Some [])) in
  (run e ∅).1 = Done tt
  ∧ Metric "ETH normalized" nan nan ∈ trace (run e ∅).2
  ∧ BtcLeading nan ∈ trace (run e ∅).2.
Proof.
  cbv zeta.
  apply (empty_eth_reply_shows_btc_leading
           (live_on_jan_1 (Response 200 (Some btc_9am)) (Response 200 (Some []))) ∅
           200 200 btc_9am); try reflexivity; try lia.
  - discriminate.
  - apply (bool_decide_unpack _). vm_compute. exact I.
Defined.

(** ** More on alignment (lines 87-96) *)

Lemma ffill_from_keeps col : ∀ l0 (i : nat) x,
  col !! i = Some x → notna x → pd.ffill_from l0 col !! i = Some x.
Proof.
  induction col as [|y col IH]; intros l0 i x Hi Hx; [done|].
  destruct i as [|i]; cbn in *.
  - simplify_eq. unfold notna in Hx. by rewrite Hx.
  - destruct (isna y); cbn; by apply IH.
Qed.

Lemma bfill_keeps col : ∀ (i : nat) x,
  col !! i = Some x → notna x → pd.bfill col !! i = Some x.
Proof.
  induction col as [|y col IH]; intros i x Hi Hx; [done|].
  destruct i as [|i]; cbn in *.
  - simplify_eq. unfold notna in Hx. by rewrite Hx.
  - by apply IH.
Qed.

Lemma filled_keeps col (i : nat) x :
  col !! i = Some x → notna x → pd.bfill (pd.ffill col) !! i = Some x.
Proof. intros Hi Hx. apply bfill_keeps; [by apply ffill_from_keeps | done]. Qed.

(** A row of a series is found at its timestamp in the aligned frame. *)
Lemma combine_keeps_column (s other : pd.price_df) idx col t p :
  (s.*1 = idx ∧ col = s.*2) ∨ (NoDup (s.*1) ∧ (∀ u, u ∈ s.*1 → u ∈ idx) ∧ col = pd.reindex s idx) →
  (t, p) ∈ s → notna p →
  ∃ i : nat, idx !! i = Some t ∧ pd.bfill (pd.ffill col) !! i = Some p.
Proof.
  intros Hcol Hin Hp. destruct Hcol as [[<- ->]|(Hnd & Hsub & ->)].
  - apply list_elem_of_lookup in Hin as [i Hi]. exists i.
    split; [by rewrite list_lookup_fmap, Hi|].
    apply filled_keeps; [|done]. by rewrite list_lookup_fmap, Hi.
  - assert (t ∈ idx) as [i Hi]%list_elem_of_lookup.
    { apply Hsub, list_elem_of_fmap. by exists (t, p). }
    exists i. split; [done|]. apply filled_keeps; [|done].
    unfold pd.reindex. rewrite list_lookup_fmap, Hi. cbn.
    f_equal. by apply at_label_elem.
Qed.

(** X10: alignment only fills gaps.  Every price observed for an asset is
    found, unchanged, at its timestamp in that asset's column of the
    aligned frame. *)
Theorem alignment_keeps_observed_prices (btc_df eth_df : pd.price_df) data t p :
  combine btc_df eth_df = Ok data → isna p = false →
  ((t, p) ∈ btc_df →
   ∃ i : nat, pd.index data !! i = Some t ∧ pd.BTC_USD data !! i = Some p)
  ∧ ((t, p) ∈ eth_df →
     ∃ i : nat, pd.index data !! i = Some t ∧ pd.ETH_USD data !! i = Some p).
Proof.
  unfold combine, pd.concat. intros Hdata Hp.
  destruct (decide (btc_df.*1 = eth_df.*1)) as [Heq|Hne]; cbn in Hdata.
  - injection Hdata as <-. cbn. split; intros Hin.
    + eapply (combine_keeps_column btc_df eth_df); [by left|done..].
    + rewrite Heq. eapply (combine_keeps_column eth_df btc_df); [by left|done..].
  - destruct (decide (eth_df.*1 = [])) as [Hee|_]; cbn in Hdata.
    { injection Hdata as <-. cbn. split; intros Hin.
      - eapply (combine_keeps_column btc_df eth_df); [by left|done..].
      - apply fmap_nil_inv in Hee as ->. by apply elem_of_nil in Hin. }
    destruct (decide (btc_df.*1 = [])) as [Hbe|_]; cbn in Hdata.
    { injection Hdata as <-. cbn. split; intros Hin.
      - apply fmap_nil_inv in Hbe as ->. by apply elem_of_nil in Hin.
      - eapply (combine_keeps_column eth_df btc_df); [by left|done..]. }
    destruct (decide _) as [[Hnb Hne']|]; cbn in Hdata; [|done].
    injection Hdata as <-. cbn. split; intros Hin.
    + eapply (combine_keeps_column btc_df eth_df); [right|done..].
      split; [done|]. split; [|done]. intros u Hu. apply elem_of_index_union. by left.
    + eapply (combine_keeps_column eth_df btc_df); [right|done..].
      split; [done|]. split; [|done]. intros u Hu. apply elem_of_index_union. by right.
Qed.

Lemma alignment_keeps_observed_prices_witness :
  ∃ data,
    combine btc_9am eth_10am = Ok data
    ∧ ((((7200000, 13%float) : Z * float) ∈ eth_10am →
        ∃ i : nat, pd.index data !! i = Some 7200000 ∧ pd.ETH_USD data !! i = Some 13%float)).
Proof.
  eexists. split; [reflexivity|].
  apply (alignment_keeps_observed_prices btc_9am eth_10am _ 7200000 13%float);
    reflexivity.
Defined.






(** X12: every curve has one point per timestamp.  The two price columns,
    the three normalized curves and the two trend lines all have the
    length of the index of the aligned frame. *)
Theorem every_curve_matches_the_index (btc_df eth_df : pd.price_df) data btc eth :
  combine btc_df eth_df = Ok data →
  normalized (pd.BTC_USD data) = Ok btc →
  normalized (pd.ETH_USD data) = Ok eth →
  let n := length (pd.index data) in
  length (pd.BTC_USD data) = n ∧ length (pd.ETH_USD data) = n
  ∧ length btc = n ∧ length eth = n ∧ length (mix_50_50 btc eth) = n
  ∧ length (pd.ewm_mean ema_period (pd.BTC_USD data)) = n
  ∧ length (pd.ewm_mean ema_period (pd.ETH_USD data)) = n.
Proof.
  intros Hdata Hbtc Heth. cbv zeta.
  destruct (combine_lengths _ _ _ Hdata) as [Hlb Hle].
  assert (length btc = length (pd.index data)) as Hnb.
  { destruct (pd.BTC_USD data) as [|x0 col] eqn:E; [done|].
    rewrite (normalized_first (x0 :: col) x0) in Hbtc by done.
    assert (btc = (λ x, x / x0)%float <$> (x0 :: col)) as -> by congruence.
    by rewrite length_fmap. }
  assert (length eth = length (pd.index data)) as Hne.
  { destruct (pd.ETH_USD data) as [|x0 col] eqn:E; [done|].
    rewrite (normalized_first (x0 :: col) x0) in Heth by done.
    assert (eth = (λ x, x / x0)%float <$> (x0 :: col)) as -> by congruence.
    by rewrite length_fmap. }
  repeat split; try done.
  - unfold mix_50_50. rewrite length_zip_with. lia.
  - by rewrite ewm_mean_length.
  - by rewrite ewm_mean_length.
Qed.

Lemma every_curve_matches_the_index_witness :
  ∃ data btc eth,
    combine btc_9am eth_10am = Ok data
    ∧ length (pd.index data) = 3%nat
    ∧ (length (pd.BTC_USD data) = length (pd.index data)
       ∧ length (pd.ETH_USD data) = length (pd.index data)
       ∧ length btc = length (pd.index data)
       ∧ length eth = length (pd.index data)
       ∧ length (mix_50_50 btc eth) = length (pd.index data)
       ∧ length (pd.ewm_mean ema_period (pd.BTC_USD data)) = length (pd.index data)
       ∧ length (pd.ewm_mean ema_period (pd.ETH_USD data)) = length (pd.index data)).
Proof.
  eexists _, _, _. split; [reflexivity|]. split; [reflexivity|].
  apply (every_curve_matches_the_index btc_9am eth_10am); reflexivity.
Defined.

(** X13: a gap survives the forward and backward fill only in a column that
    holds no value at all: a column with at least one value comes out
    without NaN, and any other column comes out as it was, all NaN. *)
Theorem fill_leaves_gaps_only_in_empty_columns (col : list float) :
  (Exists notna col → Forall notna (pd.bfill (pd.ffill col)))
  ∧ (¬ Exists notna col → all_nan col ∧ pd.bfill (pd.ffill col) = col).
Proof.
  split; [apply fill_no_gap|]. intros Hnone.
  assert (all_nan col) as Hnan.
  { apply Forall_forall. intros x Hx. apply isna_true.
    destruct (isna x) eqn:E; [done|]. destruct Hnone.
    apply Exists_exists. by exists x. }
  split; [done|]. unfold pd.ffill. by rewrite ffill_from_all_nan, bfill_all_nan.
Qed.

(** X14: the 50/50 curve is anchored too: when the first BTC and ETH values
    of the aligned frame are finite and nonzero, the first value of the
    average curve is exactly 1.0. *)
Theorem mix_starts_at_one (data : pd.frame) (b0 e0 : float) btc eth :
  pd.BTC_USD data !! 0%nat = Some b0 → pd.ETH_USD data !! 0%nat = Some e0 →
  is_finite b0 = true → nonzero b0 = true →
  is_finite e0 = true → nonzero e0 = true →
  normalized (pd.BTC_USD data) = Ok btc → normalized (pd.ETH_USD data) = Ok eth →
  mix_50_50 btc eth !! 0%nat = Some 1%float.
Proof.
  intros Hb He Hbf Hbz Hef Hez Hbtc Heth.
  rewrite (normalized_first _ b0) in Hbtc by done.
  rewrite (normalized_first _ e0) in Heth by done.
  injection Hbtc as <-. injection Heth as <-.
  destruct (pd.BTC_USD data) as [|x xs]; [done|].
  destruct (pd.ETH_USD data) as [|y ys]; [done|].
  cbn in Hb, He. simplify_eq. cbn. by rewrite !div_self.
Qed.

Lemma mix_starts_at_one_witness :
  mix_50_50 ((λ x, x / 100)%float <$> [100; 110]%float)
            ((λ x, x / 10)%float <$> [10; 12]%float) !! 0%nat = Some 1%float.
Proof.
  apply (mix_starts_at_one
           {| pd.index := [0; 3600000];
              pd.BTC_USD := [100; 110]%float;
              pd.ETH_USD := [10; 12]%float |} 100%float 10%float);
    reflexivity.
Defined.

(** ** The snapshot selector (lines 31-38) *)

Section Selector.
Implicit Types (s a b d f : string) (l : list string) (sep c : Ascii.ascii).

Lemma chars_app a b :
  String.list_ascii_of_string (a +:+ b)
  = String.list_ascii_of_string a ++ String.list_ascii_of_string b.
Proof.
  induction a as [|c a IH]; [done|].
  change (c :: String.list_ascii_of_string (a +:+ b)
          = c :: (String.list_ascii_of_string a ++ String.list_ascii_of_string b)).
  by rewrite IH.
Qed.

Lemma has_char_app c a b : has_char c (a +:+ b) ↔ has_char c a ∨ has_char c b.
Proof. unfold has_char. by rewrite chars_app, elem_of_app. Qed.

Lemma string_app_assoc a b s : (a +:+ b) +:+ s = a +:+ (b +:+ s).
Proof.
  induction a as [|c a IH]; [done|].
  change (String c ((a +:+ b) +:+ s) = String c (a +:+ (b +:+ s))). by rewrite IH.
Qed.

Lemma split_on_nonempty sep s : split_on sep s ≠ [].
Proof.
  destruct s as [|c s]; cbn [split_on]; [done|].
  destruct (Ascii.eqb c sep); [done|]. by destruct (split_on sep s).
Qed.

(** Without the separator there is one piece, the string itself. *)
Lemma split_on_no_sep sep s : ¬ has_char sep s → split_on sep s = [s].
Proof.
  unfold has_char. induction s as [|c s IH]; intros Hno; [done|].
  cbn [split_on String.list_ascii_of_string] in *.
  destruct (Ascii.eqb_spec c sep) as [->|_].
  - destruct Hno. left.
  - rewrite IH; [done|]. intros H. apply Hno. by right.
Qed.

(** The pieces of [a], then the pieces of [b]. *)
Lemma split_on_app sep a b :
  split_on sep (a +:+ String sep b) = split_on sep a ++ split_on sep b.
Proof.
  induction a as [|c a IH].
  - change ("" +:+ String sep b) with (String sep b).
    cbn [split_on app]. by rewrite Ascii.eqb_refl.
  - change (String c a +:+ String sep b) with (String c (a +:+ String sep b)).
    cbn [split_on]. rewrite IH. destruct (Ascii.eqb c sep); [done|].
    pose proof (split_on_nonempty sep a). by destruct (split_on sep a).
Qed.

Lemma endswith_refl s : endswith s s = true.
Proof. destruct s; cbn [endswith]; by rewrite String.eqb_refl. Qed.

Lemma endswith_app a suffix : endswith (a +:+ suffix) suffix = true.
Proof.
  induction a as [|c a IH]; [apply endswith_refl|].
  change (String c a +:+ suffix) with (String c (a +:+ suffix)).
  cbn [endswith]. rewrite IH. apply orb_true_r.
Qed.

Lemma strip_prefix_app p rest : strip_prefix p (p +:+ rest) = Some rest.
Proof.
  induction p as [|c p IH]; [by destruct rest|].
  change (String c p +:+ rest) with (String c (p +:+ rest)).
  cbn [strip_prefix]. by rewrite Ascii.eqb_refl.
Qed.

(** A file stored directly in a directory is among its entries. *)
Lemma listdir_file dir name fs :
  is_Some (fs !! (dir +:+ "/" +:+ name)) → ¬ has_char "/" name →
  name ∈ listdir dir fs.
Proof.
  intros [content Hfile] Hname. unfold listdir.
  apply elem_of_remove_dups, list_elem_of_omap.
  exists (dir +:+ "/" +:+ name). split.
  - apply list_elem_of_fmap. exists (dir +:+ "/" +:+ name, content).
    split; [done|]. by apply elem_of_map_to_list.
  - rewrite <- string_app_assoc, strip_prefix_app. cbn.
    by rewrite split_on_no_sep.
Qed.

Lemma date_like_no_char c d : date_char c = false → date_like d → ¬ has_char c d.
Proof.
  unfold date_like, has_char. intros Hc Hd Hin.
  rewrite Forall_forall in Hd. specialize (Hd c Hin). congruence.
Qed.

(** The date of a snapshot file is read back from its name. *)
Lemma snapshot_date_of_name symbol d :
  date_like d → snapshot_date (symbol +:+ "_" +:+ d +:+ ".csv") = d.
Proof.
  intros Hd. unfold snapshot_date.
  change (symbol +:+ "_" +:+ d +:+ ".csv")
    with (symbol +:+ String "_" (d +:+ ".csv")).
  rewrite split_on_app, last_app.
  rewrite (split_on_no_sep "_" (d +:+ ".csv")).
  2:{ intros [H|H]%has_char_app.
      - by eapply (date_like_no_char "_" d).
      - revert H. unfold has_char. cbn. rewrite !elem_of_cons, elem_of_nil.
        intros [?|[?|[?|[?|[]]]]]; discriminate. }
  cbn [last default from_option id].
  change (d +:+ ".csv") with (d +:+ String "." "csv").
  rewrite split_on_app, (split_on_no_sep "." d); [done|].
  by eapply date_like_no_char.
Qed.

Lemma elem_of_insert_desc d b l : b ∈ insert_desc d l ↔ b = d ∨ b ∈ l.
Proof.
  induction l as [|x r IH]; cbn.
  - rewrite list_elem_of_singleton, elem_of_nil. tauto.
  - destruct (decide (d = x)) as [->|_]; [rewrite elem_of_cons; tauto|].
    destruct (String.leb x d); [by rewrite elem_of_cons|].
    rewrite !elem_of_cons, IH. tauto.
Qed.

Lemma elem_of_sorted_set_desc d l : d ∈ sorted_set_desc l ↔ d ∈ l.
Proof.
  unfold sorted_set_desc. induction l as [|x l IH]; cbn; [done|].
  by rewrite elem_of_insert_desc, IH, elem_of_cons.
Qed.

Lemma insert_desc_newest_first d l : newest_first l → newest_first (insert_desc d l).
Proof.
  induction 1 as [|x r Hr IH Hx]; cbn; [by repeat constructor|].
  destruct (decide (d = x)) as [->|Hne]; [by constructor|].
  destruct (String.leb x d) eqn:Hle.
  - assert (strict String.le x d) as Hlt.
    { apply strict_spec_alt. split; [by apply Is_true_true|congruence]. }
    constructor; [by constructor|]. constructor; [done|].
    eapply Forall_impl; [exact Hx|]. intros b Hb. cbn in Hb.
    eapply strict_trans_l; [exact Hb|]. by apply Is_true_true.
  - assert (strict String.le d x) as Hlt.
    { apply total_not_strict. intros H%Is_true_true. congruence. }
    constructor; [done|]. apply Forall_forall. intros b [->|Hb]%elem_of_insert_desc; [done|].
    rewrite Forall_forall in Hx. by apply Hx.
Qed.

Lemma sorted_set_desc_newest_first l : newest_first (sorted_set_desc l).
Proof.
  unfold sorted_set_desc. induction l as [|x l IH]; cbn; [constructor|].
  by apply insert_desc_newest_first.
Qed.

End Selector.

(** X15: the select box offers, after "Today (Live)", each snapshot date
    once, newest first; the dates offered are exactly those read from the
    names of the [.csv] entries of the snapshot directory, whatever the
    asset. *)
Theorem selectbox_lists_each_date_once_newest_first (fs : gmap string pd.csv) :
  selectbox_options fs = "Today (Live)" :: available_dates fs
  ∧ newest_first (available_dates fs)
  ∧ NoDup (available_dates fs)
  ∧ ∀ d, d ∈ available_dates fs
         ↔ ∃ f, f ∈ listdir raw_data_dir fs ∧ endswith f ".csv" = true ∧ snapshot_date f = d.
Proof.
  split; [done|].
  assert (newest_first (available_dates fs)) as Hsorted
    by apply sorted_set_desc_newest_first.
  split; [done|]. split.
  - induction Hsorted as [|x r Hr IH Hx]; constructor; [|done].
    intros Hin. rewrite Forall_forall in Hx. specialize (Hx x Hin).
    by destruct Hx as [? []].
  - intros d. unfold available_dates, available_files.
    rewrite elem_of_sorted_set_desc, list_elem_of_fmap. split.
    + intros (f & -> & [Hcsv Hin]%list_elem_of_filter). by exists f.
    + intros (f & Hin & Hcsv & <-). exists f. split; [done|].
      by apply list_elem_of_filter.
Qed.

(** The date of a stored snapshot file is among the dates read from the
    directory. *)
Lemma snapshot_file_date_listed (fs : gmap string pd.csv) (symbol date : string) :
  date_like date → ¬ has_char "/" symbol →
  is_Some (fs !! snapshot_file symbol date) →
  date ∈ available_dates fs.
Proof.
  intros Hdate Hsym Hfile.
  unfold available_dates, available_files.
  apply elem_of_sorted_set_desc, list_elem_of_fmap.
  exists (symbol +:+ "_" +:+ date +:+ ".csv").
  split; [by rewrite snapshot_date_of_name|].
  apply list_elem_of_filter. split.
  - change (symbol +:+ "_" +:+ date +:+ ".csv")
      with (symbol +:+ String "_" date +:+ ".csv").
    rewrite <- (string_app_assoc symbol).
    apply endswith_app.
  - apply listdir_file; [done|].
    intros [H|[H|[H|H]%has_char_app]%has_char_app]%has_char_app.
    + done.
    + revert H. unfold has_char. cbn. rewrite !elem_of_cons, elem_of_nil.
      intros [?|[]]; discriminate.
    + by eapply (date_like_no_char "/" date).
    + revert H. unfold has_char. cbn. rewrite !elem_of_cons, elem_of_nil.
      intros [?|[?|[?|[?|[]]]]]; discriminate.
Qed.


Lemma listdir_mono dir (fs fs' : gmap string pd.csv) name :
  (∀ p, is_Some (fs !! p) → is_Some (fs' !! p)) →
  name ∈ listdir dir fs → name ∈ listdir dir fs'.
Proof.
  intros Hkeep. unfold listdir. rewrite !elem_of_remove_dups, !list_elem_of_omap.
  intros (path & Hin & Hname). exists path. split; [|done].
  apply list_elem_of_fmap in Hin as ([p content] & -> & Hin).
  apply elem_of_map_to_list in Hin.
  destruct (Hkeep p) as [content' Hp]; [by eexists|].
  apply list_elem_of_fmap. exists (p, content'). split; [done|].
  by apply elem_of_map_to_list.
Qed.

Lemma available_dates_mono (fs fs' : gmap string pd.csv) d :
  (∀ p, is_Some (fs !! p) → is_Some (fs' !! p)) →
  d ∈ available_dates fs → d ∈ available_dates fs'.
Proof.
  intros Hkeep. unfold available_dates, available_files.
  rewrite !elem_of_sorted_set_desc, !list_elem_of_fmap.
  intros (f & -> & [Hcsv Hin]%list_elem_of_filter). exists f. split; [done|].
  apply list_elem_of_filter. split; [done|]. by eapply listdir_mono.
Qed.

Lemma load_data_keeps_files e w p :
  is_Some (files w !! p) → is_Some (files (load_data e w).2 !! p).
Proof.
  intros Hp. destruct (freeze_mode e) eqn:Hmode.
  - by rewrite load_data_frozen_world.
  - destruct (fetch_fails (binance e "BTCUSDT") || fetch_fails (binance e "ETHUSDT"))
      eqn:Hfail.
    + by destruct (load_data_live_fails e w Hmode Hfail) as (ex & rq & _ & ->).
    + apply orb_false_iff in Hfail as [Hfb Hfe].
      destruct (load_data_live_ok e w Hmode Hfb Hfe)
        as (sb & btc_df & se & eth_df & _ & _ & ->).
      cbn. rewrite !lookup_insert_is_Some'. auto.
Qed.

Lemma pipeline_keeps_files e b d w p :
  is_Some (files w !! p) → is_Some (files (pipeline e b d w).2 !! p).
Proof.
  intros Hp. destruct (pipeline_spec e b d w) as (evs & _ & _ & Hfiles).
  destruct ((pipeline e b d w).1) as [[]|ex|].
  - destruct Hfiles as (entry & _ & ->). rewrite lookup_insert_is_Some'. auto.
  - by rewrite Hfiles.
  - by rewrite Hfiles.
Qed.

Lemma run_keeps_files e fs p :
  is_Some (fs !! p) → is_Some (files (run e fs).2 !! p).
Proof.
  intros Hp.
  pose proof (load_data_keeps_files e {| files := fs; trace := [] |} p Hp) as Hload.
  unfold run, script, mbind, M_bind.
  destruct (load_data e _) as [[dfs|ex|] w1]; cbn in *; [|done..].
  by apply pipeline_keeps_files.
Qed.

Lemma date_like_is_frozen e : date_like (snapshot_choice e) → freeze_mode e = true.
Proof.
  intros Hdate. unfold freeze_mode.
  destruct (String.eqb_spec (snapshot_choice e) "Today (Live)") as [Heq|]; [|done].
  rewrite Heq in Hdate. by inversion Hdate.
Qed.

(** X16: a stored snapshot is always offered.  When the file of some asset
    for a date exists, the date printed as by [strftime("%Y-%m-%d")], that
    date is among the dates of the select box. *)
Theorem stored_snapshot_date_is_offered (fs : gmap string pd.csv) (symbol date : string) :
  date_like date → ¬ has_char "/" symbol →
  is_Some (fs !! snapshot_file symbol date) →
  date ∈ available_dates fs.
Proof. apply snapshot_file_date_listed. Qed.

Lemma stored_snapshot_date_is_offered_witness :
  "2024-01-01" ∈ available_dates
    ({[ snapshot_file "ETHUSDT" "2024-01-01" := pd.price_df_to_csv eth_9am ]}).
Proof.
  apply (stored_snapshot_date_is_offered _ "ETHUSDT" "2024-01-01").
  - repeat constructor.
  - unfold has_char. cbn. rewrite !elem_of_cons, elem_of_nil.
    intros [?|[?|[?|[?|[?|[?|[?|[]]]]]]]]; discriminate.
  - vm_compute. eauto.
Defined.

(** X17: page loads never delete a file, whatever their mode and however
    they end; so a date the select box offers stays offered for the rest
    of the session. *)
Theorem files_and_dates_survive_the_session (es : list env) (fs : gmap string pd.csv) :
  (∀ p, is_Some (fs !! p) → is_Some (session es fs !! p))
  ∧ (∀ d, d ∈ available_dates fs → d ∈ available_dates (session es fs)).
Proof.
  assert (∀ p, is_Some (fs !! p) → is_Some (session es fs !! p)) as Hkeep.
  { unfold session. revert fs. induction es as [|e es IH]; intros fs p Hp; [done|].
    cbn. by apply IH, run_keeps_files. }
  split; [done|]. intros d. by apply available_dates_mono.
Qed.

(** X18: a live page load whose two fetches succeed puts today's date in
    the select box of the next page load, whether or not the rest of the
    script then completes. *)
Theorem live_fetch_adds_today_to_the_dates (e : env) (fs : gmap string pd.csv) :
  freeze_mode e = false →
  fetch_fails (binance e "BTCUSDT") = false →
  fetch_fails (binance e "ETHUSDT") = false →
  date_like (snapshot_today e) →
  snapshot_today e ∈ available_dates (files (run e fs).2).
Proof.
  intros Hmode Hb He Hdate.
  apply (snapshot_file_date_listed _ "BTCUSDT"); [done| |].
  { unfold has_char. cbn. rewrite !elem_of_cons, elem_of_nil.
    intros [?|[?|[?|[?|[?|[?|[?|[]]]]]]]]; discriminate. }
  unfold run, script, mbind, M_bind.
  destruct (load_data_live_ok e {| files := fs; trace := [] |} Hmode Hb He)
    as (sb & btc_df & se & eth_df & _ & _ & ->).
  cbn. apply pipeline_keeps_files. cbn.
  rewrite !lookup_insert_is_Some'. auto.
Qed.

Lemma live_fetch_adds_today_to_the_dates_witness :
  "2024-01-01"
  ∈ available_dates
      (files (run (live_on_jan_1 (Response 200 (Some btc_9am))
                                 (Response 200 (Some eth_9am))) ∅).2).
Proof.
  apply (live_fetch_adds_today_to_the_dates
           (live_on_jan_1 (Response 200 (Some btc_9am)) (Response 200 (Some eth_9am))) ∅).
  - reflexivity.
  - reflexivity.
  - reflexivity.
  - repeat constructor.
Defined.

(** X19: an offered date need not be loadable.  A date is offered as soon
    as one [.csv] entry carries it; when the ETH snapshot of the date
    exists but the BTC one does not, the date is in the select box and
    selecting it raises [FileNotFoundError] right after the sidebar note,
    leaving the files as they were. *)
Theorem offered_date_without_btc_file_raises (e : env) (fs : gmap string pd.csv) :
  date_like (snapshot_choice e) →
  is_Some (fs !! snapshot_file "ETHUSDT" (snapshot_choice e)) →
  fs !! snapshot_file "BTCUSDT" (snapshot_choice e) = None →
  snapshot_choice e ∈ selectbox_options fs
  ∧ run e fs
    = (Raised FileNotFoundError,
       {| files := fs; trace := [SidebarInfo (snapshot_choice e)] |}).
Proof.
  intros Hdate Heth Hbtc. split.
  - unfold selectbox_options. apply elem_of_cons. right.
    apply (snapshot_file_date_listed _ "ETHUSDT"); [done| |done].
    unfold has_char. cbn. rewrite !elem_of_cons, elem_of_nil.
    intros [?|[?|[?|[?|[?|[?|[?|[]]]]]]]]; discriminate.
  - rewrite run_frozen by by apply date_like_is_frozen.
    unfold mbind, M_bind, lift. by rewrite Hbtc.
Qed.

Lemma offered_date_without_btc_file_raises_witness :
  let fs : gmap string pd.csv :=
    {[ snapshot_file "ETHUSDT" "2024-01-01" := pd.price_df_to_csv eth_9am ]} in
  "2024-01-01" ∈ selectbox_options fs
  ∧ run (frozen_jan_1 NoResponse NoResponse) fs
    = (Raised FileNotFoundError,
       {| files := fs; trace := [SidebarInfo "2024-01-01"] |}).
Proof.
  apply (offered_date_without_btc_file_raises (frozen_jan_1 NoResponse NoResponse)).
  - repeat constructor.
  - vm_compute. eauto.
  - reflexivity.
Defined.
